(** * TK.py: a page monitor that reports new actor profiles

    Shallow embedding of [src/TK.py].  The program fetches one page,
    extracts profile records from its markup, stores the ones it has not
    seen in an SQLite table and sends one Telegram notification per new
    record; a [/ping] command reports the health of the store and of the
    monitored page.

    Conventions of the embedding.
    - A Python [str] is a Rocq [string] holding its UTF-8 encoding.  Every
      needle the program searches for ("http", "item", "card", "name",
      "title") is ASCII, so prefix and substring tests on the encoding and
      on the code points agree.
    - The collaborators of the program (the HTTP library, the HTML parser,
      SQLite, the Telegram client) are the environment: what they answer
      is an input of the model, and what the program asks of them is
      recorded in the [World]. *)

From Stdlib Require Import String Ascii List ZArith Bool Arith Lia.
From Stdlib Require Import Numbers.DecimalString.
Import ListNotations.
Open Scope list_scope.
Open Scope string_scope.

(** ** Python strings *)

Module Str.

(** [s.startswith(prefix)] *)
Definition startswith (s pre : string) : bool := String.prefix pre s.

(** [needle in hay] *)
Fixpoint contains (needle hay : string) : bool :=
  String.prefix needle hay ||
  match hay with
  | EmptyString => false
  | String _ rest => contains needle rest
  end.

(** [sep.join(parts)] *)
Definition join (sep : string) (parts : list string) : string :=
  String.concat sep parts.

(** A non-empty string is truthy. *)
Definition truthy (s : string) : bool :=
  match s with EmptyString => false | String _ _ => true end.

Definition of_bytes (l : list nat) : string :=
  string_of_list_ascii (map ascii_of_nat l).

Definition nl : string := of_bytes [10].

(** [str(n)] and [{n}] inside an f-string, for an integer. *)
Definition of_Z (z : Z) : string := NilZero.string_of_int (Z.to_int z).
Definition of_nat (n : nat) : string := of_Z (Z.of_nat n).

(** The characters for which [str.isspace] holds, as UTF-8 byte sequences:
    U+0009..U+000D, U+001C..U+0020, U+0085, U+00A0, U+1680,
    U+2000..U+200A, U+2028, U+2029, U+202F, U+205F, U+3000. *)
Definition whitespace : list (list nat) :=
  [ [9]; [10]; [11]; [12]; [13]; [28]; [29]; [30]; [31]; [32];
    [194; 133]; [194; 160]; [225; 154; 128];
    [226; 128; 128]; [226; 128; 129]; [226; 128; 130]; [226; 128; 131];
    [226; 128; 132]; [226; 128; 133]; [226; 128; 134]; [226; 128; 135];
    [226; 128; 136]; [226; 128; 137]; [226; 128; 138];
    [226; 128; 168]; [226; 128; 169]; [226; 128; 175];
    [226; 129; 159]; [227; 128; 128] ].

Fixpoint drop_prefix (pre s : list ascii) : option (list ascii) :=
  match pre, s with
  | [], _ => Some s
  | _ :: _, [] => None
  | a :: pre', b :: s' => if Ascii.eqb a b then drop_prefix pre' s' else None
  end.

Fixpoint drop_any (pres : list (list ascii)) (s : list ascii)
  : option (list ascii) :=
  match pres with
  | [] => None
  | pre :: more =>
      match drop_prefix pre s with
      | Some s' => Some s'
      | None => drop_any more s
      end
  end.

(** Removes leading occurrences of the given sequences; every round
    removes at least one byte, so [fuel = length s] rounds are enough. *)
Fixpoint lstrip_with (pres : list (list ascii)) (fuel : nat) (s : list ascii)
  : list ascii :=
  match fuel with
  | O => s
  | S fuel' =>
      match drop_any pres s with
      | Some s' => lstrip_with pres fuel' s'
      | None => s
      end
  end.

Definition ws_fwd : list (list ascii) := map (map ascii_of_nat) whitespace.
Definition ws_bwd : list (list ascii) := map (@rev ascii) ws_fwd.

(** [s.strip()] *)
Definition strip (s : string) : string :=
  let l := list_ascii_of_string s in
  let l := lstrip_with ws_fwd (List.length l) l in
  let r := rev l in
  let r := lstrip_with ws_bwd (List.length r) r in
  string_of_list_ascii (rev r).

End Str.

(** ** The parsed document (BeautifulSoup with html.parser)

    A [Tag] has a name, attributes and contents.  The parser stores
    [class] as the list of its whitespace-separated tokens and every
    other attribute the program reads ([href], [src]) as one string, an
    attribute written without a value being the empty string.
    [Comment] stands for the string kinds that [get_text] leaves out. *)

#[warnings="-register-all"]
Inductive PageElement : Type :=
| Tag (name : string) (class_ : option (list string))
      (attrs : list (string * string)) (contents : list PageElement)
| NavigableString (text : string)
| Comment (text : string).

Module Soup.

(** [tag.descendants]: every element below the tag, in document order. *)
Fixpoint descendants (e : PageElement) : list PageElement :=
  match e with
  | Tag _ _ _ contents => flat_map (fun c => c :: descendants c) contents
  | _ => []
  end.

(** [tag.get(key)] for a single-valued attribute. *)
Fixpoint lookup (key : string) (attrs : list (string * string))
  : option string :=
  match attrs with
  | [] => None
  | (k, v) :: rest => if String.eqb k key then Some v else lookup key rest
  end.

Definition get (e : PageElement) (key : string) : option string :=
  match e with
  | Tag _ _ attrs _ => lookup key attrs
  | _ => None
  end.

(** How a search criterion is matched against the [class] attribute: a
    missing attribute never matches; otherwise the criterion is tried on
    every token and then on the tokens joined by one space. *)
Definition matches_class (crit : string -> bool) (class_ : option (list string))
  : bool :=
  match class_ with
  | None => false
  | Some tokens => existsb crit tokens || crit (Str.join " " tokens)
  end.

(** The criterion built from a list of strings: equality with one of them. *)
Definition one_of (names : list string) (s : string) : bool :=
  existsb (String.eqb s) names.

(** A search for tags by name and, optionally, by class. *)
Definition selects (names : list string) (class_crit : option (string -> bool))
    (e : PageElement) : bool :=
  match e with
  | Tag name class_ _ _ =>
      one_of names name &&
      match class_crit with
      | None => true
      | Some crit => matches_class crit class_
      end
  | _ => false
  end.

(** [tag.find_all(names, class_=crit)] *)
Definition find_all (e : PageElement) (names : list string)
    (class_crit : option (string -> bool)) : list PageElement :=
  filter (selects names class_crit) (descendants e).

(** [tag.find(names, class_=crit)]: the first result of [find_all]. *)
Definition find (e : PageElement) (names : list string)
    (class_crit : option (string -> bool)) : option PageElement :=
  List.find (selects names class_crit) (descendants e).

(** [tag.get_text()]: the text below the tag, concatenated. *)
Fixpoint get_text (e : PageElement) : string :=
  match e with
  | Tag _ _ _ contents => String.concat EmptyString (map get_text contents)
  | NavigableString text => text
  | Comment _ => EmptyString
  end.

End Soup.

(** ** Records, exceptions and the world the program acts on *)

(** The dictionary [{'url': .., 'name': .., 'photo': ..}] built by
    [extract_profiles]; ['photo'] is [None] or a string. *)
Record Profile : Type := mkProfile {
  url : string;
  name : string;
  photo : option string
}.

(** A row of the table [tracked_profiles]. *)
Record Row : Type := mkRow {
  id : Z;
  profile_url : string;
  row_name : string;
  photo_url : option string;
  created_at : string
}.

Inductive Exception : Type :=
| RequestException (msg : string)   (* requests.get: timeout, DNS, reset *)
| HTTPError (msg : string)          (* response.raise_for_status() *)
| SqliteError (msg : string)
| TelegramError (msg : string)
| UnboundLocalError (variable : string).

(** [str(e)], as interpolated by [{e}] in the log lines. *)
Definition str (e : Exception) : string :=
  match e with
  | RequestException msg | HTTPError msg | SqliteError msg
  | TelegramError msg => msg
  | UnboundLocalError v =>
      "cannot access local variable '" ++ v ++
      "' where it is not associated with a value"
  end.

Inductive Level : Type := INFO | WARNING | ERROR.

Record LogRecord : Type := mkLog { level : Level; message : string }.

(** A request made to the Telegram client. *)
Inductive BotCall : Type :=
| send_photo (chat_id photo caption : string)
| send_message (chat_id text : string)
| reply_text (text : string).

(** The state the program reads and writes: the table of [profiles.db]
    with the counter behind [AUTOINCREMENT], the number of SQLite
    connections opened so far, the requests made to Telegram (oldest
    first) and the log (oldest first). *)
Record World : Type := mkWorld {
  tracked_profiles : list Row;
  sqlite_sequence : Z;
  connections : nat;
  telegram : list BotCall;
  log : list LogRecord
}.

(** What SQLite does with one connection. *)
Inductive SqliteEvent : Type :=
| Completes (current_timestamp : string)
| ConnectFails (msg : string)      (* sqlite3.connect raises *)
| StatementFails (msg : string).   (* execute or commit raises *)

(** What the HTTP library answers to one GET: a response, whose text is
    given already parsed, or a transport failure. *)
Record Response : Type := mkResponse {
  status_code : Z;
  reason : string;
  soup : PageElement
}.

Inductive HttpOutcome : Type :=
| Responds (response : Response)
| Fails (msg : string).

(** The environment: the chat id read at start-up, what SQLite does with
    the n-th connection, and the error, if any, of the n-th request to
    Telegram. *)
Record Env : Type := mkEnv {
  TELEGRAM_CHAT_ID : string;
  sqlite3 : nat -> SqliteEvent;
  bot : nat -> option string
}.

(** ** A state and exception monad

    Effects on the world made before an exception is raised are kept, as
    in Python. *)

Inductive Result (A : Type) : Type :=
| Return (a : A)
| Raise (e : Exception).
Arguments Return {A} a.
Arguments Raise {A} e.

Definition M (A : Type) : Type := World -> Result A * World.

Definition ret {A} (a : A) : M A := fun w => (Return a, w).

Definition raise {A} (e : Exception) : M A := fun w => (Raise e, w).

Definition bind {A B} (c : M A) (k : A -> M B) : M B :=
  fun w =>
    match c w with
    | (Return a, w') => k a w'
    | (Raise e, w') => (Raise e, w')
    end.

(** [try: body except Exception as e: handler e] *)
Definition try_except {A} (body : M A) (handler : Exception -> M A) : M A :=
  fun w =>
    match body w with
    | (Return a, w') => (Return a, w')
    | (Raise e, w') => handler e w'
    end.

Declare Scope py_scope.
Delimit Scope py_scope with py.
Notation "x <- c ;; k" := (bind c (fun x => k))
  (at level 61, c at next level, right associativity) : py_scope.
Notation "c ;; k" := (bind c (fun _ => k))
  (at level 61, right associativity) : py_scope.
Open Scope py_scope.

Definition logger (lvl : Level) (msg : string) : M unit :=
  fun w =>
    (Return tt,
     mkWorld (tracked_profiles w) (sqlite_sequence w) (connections w)
             (telegram w) (log w ++ [mkLog lvl msg])%list).

(** ** The program *)

Definition URL_TO_MONITOR : string :=
  "https://www.kino-teatr.ru/mourn/y2025/m12/".

(** The origin written into [extract_profiles]. *)
Definition SITE : string := "https://www.kino-teatr.ru".

(** [requests.get(URL_TO_MONITOR, ...)] *)
Definition requests_get (outcome : HttpOutcome) : M Response :=
  match outcome with
  | Responds response => ret response
  | Fails msg => raise (RequestException msg)
  end.

(** [response.raise_for_status()]: raises for 4xx and 5xx codes only. *)
Definition raise_for_status (response : Response) : M unit :=
  let code := status_code response in
  let describe kind :=
    Str.of_Z code ++ " " ++ kind ++ " Error: " ++ reason response ++
    " for url: " ++ URL_TO_MONITOR in
  if ((400 <=? code) && (code <? 500))%Z then
    raise (HTTPError (describe "Client"))
  else if ((500 <=? code) && (code <? 600))%Z then
    raise (HTTPError (describe "Server"))
  else ret tt.

(** [lambda x: x and ('item' in x or 'card' in x)] *)
Definition item_or_card (x : string) : bool :=
  Str.truthy x && (Str.contains "item" x || Str.contains "card" x).

(** [lambda x: x and ('name' in x or 'title' in x)] *)
Definition name_or_title (x : string) : bool :=
  Str.truthy x && (Str.contains "name" x || Str.contains "title" x).

(** The first search for profile containers (line 63). *)
Definition primary_blocks (soup : PageElement) : list PageElement :=
  Soup.find_all soup ["div"] (Some (Soup.one_of ["actor-item"; "person-item"])).

(** The alternative search (line 67). *)
Definition secondary_blocks (soup : PageElement) : list PageElement :=
  Soup.find_all soup ["div"] (Some item_or_card).

(** Lines 63-67: the alternative search runs when the first finds nothing. *)
Definition profile_blocks (soup : PageElement) : list PageElement :=
  match primary_blocks soup with
  | [] => secondary_blocks soup
  | blocks => blocks
  end.

(** Lines 76-78 and 87-88: a string that does not start with "http" gets
    the site prepended. *)
Definition absolute (u : string) : string :=
  if Str.startswith u "http" then u else SITE ++ u.

(** The body of the loop over the blocks (lines 71-94); [None] is
    [continue].  On a parsed tree no statement of the body raises (every
    attribute read is a string that was tested first), so the handler of
    lines 96-98 is never entered. *)
Definition parse_block (block : PageElement) : option Profile :=
  match Soup.find block ["a"] None with
  | None => None
  | Some link_tag =>
      match Soup.get link_tag "href" with
      | None => None
      | Some href =>
          if negb (Str.truthy href) then None
          else
            let profile_url := absolute href in
            let name :=
              match Soup.find block ["h3"; "h4"; "div"] (Some name_or_title) with
              | Some name_tag => Str.strip (Soup.get_text name_tag)
              | None => "Неизвестно"
              end in
            let photo_url :=
              match Soup.find block ["img"] None with
              | Some img_tag =>
                  match Soup.get img_tag "src" with
                  | Some src => if Str.truthy src then Some src else None
                  | None => None
                  end
              | None => None
              end in
            let photo_url := option_map absolute photo_url in
            Some (mkProfile profile_url name photo_url)
      end
  end.

(** Lines 59 and 69-98: the profiles of the blocks, in document order. *)
Fixpoint parse_blocks (blocks : list PageElement) : list Profile :=
  match blocks with
  | [] => []
  | block :: rest =>
      match parse_block block with
      | Some profile => profile :: parse_blocks rest
      | None => parse_blocks rest
      end
  end.

(** [ProfileMonitor.extract_profiles] *)
Definition extract_profiles (page : HttpOutcome) : M (list Profile) :=
  try_except
    (response <- requests_get page ;;
     raise_for_status response ;;
     let profiles := parse_blocks (profile_blocks (soup response)) in
     logger INFO ("Найдено профилей на странице: " ++
                  Str.of_nat (List.length profiles)) ;;
     ret profiles)
    (fun e =>
       logger ERROR ("Ошибка при парсинге страницы: " ++ str e) ;;
       ret []).

Section Program.

Variable env : Env.

(** [sqlite3.connect(DATABASE_FILE)]: the connection carries what SQLite
    will do with the statement run on it. *)
Definition sqlite3_connect : M SqliteEvent :=
  fun w =>
    let event := sqlite3 env (connections w) in
    let w' := mkWorld (tracked_profiles w) (sqlite_sequence w)
                      (S (connections w)) (telegram w) (log w) in
    match event with
    | ConnectFails msg => (Raise (SqliteError msg), w')
    | _ => (Return event, w')
    end.

(** The row stored under a url, if any ([profile_url] is [UNIQUE]). *)
Definition stored (u : string) (table : list Row) : option Row :=
  List.find (fun r => String.eqb (profile_url r) u) table.

(** Lines 113-119: [INSERT OR IGNORE INTO tracked_profiles (profile_url,
    name, photo_url) VALUES (?, ?, ?)] followed by [commit]; the result
    is [cursor.rowcount].  SQLite draws the next id from the counter
    behind [AUTOINCREMENT] before it checks [UNIQUE]: a url that is
    already stored leaves the table as it is, but the id that was drawn
    is spent all the same. *)
Definition insert_or_ignore (conn : SqliteEvent) (profile : Profile) : M Z :=
  fun w =>
    match conn with
    | Completes now =>
        let rowid := (sqlite_sequence w + 1)%Z in
        match stored (url profile) (tracked_profiles w) with
        | Some _ =>
            (Return 0%Z,
             mkWorld (tracked_profiles w) rowid
                     (connections w) (telegram w) (log w))
        | None =>
            let row := mkRow rowid (url profile) (name profile)
                             (photo profile) now in
            (Return 1%Z,
             mkWorld (tracked_profiles w ++ [row])%list rowid
                     (connections w) (telegram w) (log w))
        end
    | ConnectFails msg | StatementFails msg => (Raise (SqliteError msg), w)
    end.

(** [SELECT COUNT( * ) FROM tracked_profiles] *)
Definition select_count (conn : SqliteEvent) : M Z :=
  fun w =>
    match conn with
    | Completes _ => (Return (Z.of_nat (List.length (tracked_profiles w))), w)
    | ConnectFails msg | StatementFails msg => (Raise (SqliteError msg), w)
    end.

(** [ProfileMonitor.save_profile]: the connection is opened before the
    [try], so only a failure of the statement is turned into [False]. *)
Definition save_profile (profile : Profile) : M bool :=
  conn <- sqlite3_connect ;;
  try_except
    (rowcount <- insert_or_ignore conn profile ;;
     let is_new := (0 <? rowcount)%Z in
     ret is_new)
    (fun e =>
       logger ERROR ("Ошибка при сохранении профиля: " ++ str e) ;;
       ret false).

(** Lines 131-137: the loop of [get_new_profiles]. *)
Fixpoint keep_new (current_profiles : list Profile) : M (list Profile) :=
  match current_profiles with
  | [] => ret []
  | profile :: rest =>
      is_new <- save_profile profile ;;
      new_profiles <- keep_new rest ;;
      ret (if is_new then profile :: new_profiles else new_profiles)
  end.

(** [ProfileMonitor.get_new_profiles] *)
Definition get_new_profiles (page : HttpOutcome) : M (list Profile) :=
  current_profiles <- extract_profiles page ;;
  keep_new current_profiles.

(** One request to the Telegram client: it is recorded, and fails when
    the environment says so. *)
Definition call_bot (call : BotCall) : M unit :=
  fun w =>
    let w' := mkWorld (tracked_profiles w) (sqlite_sequence w) (connections w)
                      (telegram w ++ [call])%list (log w) in
    match bot env (List.length (telegram w)) with
    | Some msg => (Raise (TelegramError msg), w')
    | None => (Return tt, w')
    end.

(** Line 143. *)
Definition notification_text (profile : Profile) : string :=
  "🎭 Новый профиль актера:" ++ Str.nl ++ Str.nl ++
  "👤 Имя: " ++ name profile ++ Str.nl ++
  "🔗 Ссылка: " ++ url profile.

(** Line 165. *)
Definition fallback_text (profile : Profile) : string :=
  "🎭 Новый профиль (ошибка загрузки фото):" ++ Str.nl ++
  "👤 " ++ name profile ++ Str.nl ++
  "🔗 " ++ url profile.

(** [if profile['photo']]: a photo that is neither [None] nor empty. *)
Definition photo_present (profile : Profile) : option string :=
  match photo profile with
  | Some p => if Str.truthy p then Some p else None
  | None => None
  end.

(** The body of the loop of [send_notification] (lines 142-168). *)
Definition notify (profile : Profile) : M unit :=
  try_except
    (let message := notification_text profile in
     match photo_present profile with
     | Some p => call_bot (send_photo (TELEGRAM_CHAT_ID env) p message)
     | None => call_bot (send_message (TELEGRAM_CHAT_ID env) message)
     end ;;
     logger INFO ("Отправлено уведомление о профиле: " ++ name profile))
    (fun e =>
       logger ERROR ("Ошибка при отправке уведомления: " ++ str e) ;;
       try_except
         (call_bot (send_message (TELEGRAM_CHAT_ID env) (fallback_text profile)))
         (fun e2 =>
            logger ERROR ("Не удалось отправить даже текстовое уведомление: "
                          ++ str e2))).

(** [send_notification] *)
Fixpoint send_notification (new_profiles : list Profile) : M unit :=
  match new_profiles with
  | [] => ret tt
  | profile :: rest => notify profile ;; send_notification rest
  end.

(** [ping_command].  [count] is assigned only when the query of the
    table succeeds; reading it afterwards while it is unassigned raises
    [UnboundLocalError].  [check_time] is the formatted
    [datetime.now()], [page] the answer to the GET of the page. *)
Definition ping_command (check_time : string) (page : HttpOutcome) : M unit :=
  db <- try_except
          (conn <- sqlite3_connect ;;
           count <- select_count conn ;;
           ret (Some count, "✅ Работает"))
          (fun e => ret (None, "❌ Ошибка: " ++ str e)) ;;
  let count := fst db in
  let db_status := snd db in
  page_status <- try_except
          (response <- requests_get page ;;
           ret (if (status_code response =? 200)%Z then "✅ Доступна"
                else "❌ Код: " ++ Str.of_Z (status_code response)))
          (fun e => ret ("❌ Ошибка: " ++ str e)) ;;
  count <- match count with
           | Some n => ret n
           | None => raise (UnboundLocalError "count")
           end ;;
  let status_message :=
    "🤖 Статус бота:" ++ Str.nl ++
    "🕐 Время проверки: " ++ check_time ++ Str.nl ++
    "📊 Профилей в базе: " ++ Str.of_Z count ++ Str.nl ++
    "🗄️ База данных: " ++ db_status ++ Str.nl ++
    "🌐 Целевая страница: " ++ page_status ++ Str.nl ++
    "⏰ Следующая проверка через 5 минут" in
  call_bot (reply_text status_message).

End Program.

(** ** Notions used to state the properties *)

(** The world after one more log record. *)
Definition logged (w : World) (lvl : Level) (msg : string) : World :=
  mkWorld (tracked_profiles w) (sqlite_sequence w) (connections w)
          (telegram w) (log w ++ [mkLog lvl msg])%list.

(** The status codes for which [raise_for_status] raises. *)
Definition http_error (code : Z) : bool :=
  ((400 <=? code) && (code <? 600))%Z.

(** The 2xx range of status codes. *)
Definition is_2xx (code : Z) : bool :=
  ((200 <=? code) && (code <? 300))%Z.

(** The guard of line 73: the first anchor of the block exists and has a
    non-empty [href]. *)
Definition valid_block (block : PageElement) : bool :=
  match Soup.find block ["a"] None with
  | Some link_tag =>
      match Soup.get link_tag "href" with
      | Some href => Str.truthy href
      | None => false
      end
  | None => false
  end.

(** What an entity returned by the extraction looks like. *)
Definition http_entity (p : Profile) : Prop :=
  Str.startswith (url p) "http" = true /\
  match photo p with
  | Some s => Str.startswith s "http" = true
  | None => True
  end.

(** A URI reference is absolute when it begins with a scheme, that is a
    letter followed by letters, digits, "+", "-" or ".", and then ":"
    (RFC 3986); it is relative otherwise. *)
Module Uri.

Definition is_alpha (c : ascii) : bool :=
  let n := nat_of_ascii c in
  (((65 <=? n) && (n <=? 90)) || ((97 <=? n) && (n <=? 122)))%nat.

Definition is_scheme_char (c : ascii) : bool :=
  let n := nat_of_ascii c in
  is_alpha c || ((48 <=? n) && (n <=? 57))%nat ||
  (n =? 43)%nat || (n =? 45)%nat || (n =? 46)%nat.

Fixpoint scheme_rest (s : string) : bool :=
  match s with
  | EmptyString => false
  | String c rest =>
      if (nat_of_ascii c =? 58)%nat then true
      else if is_scheme_char c then scheme_rest rest
      else false
  end.

Definition has_scheme (s : string) : bool :=
  match s with
  | EmptyString => false
  | String c rest => is_alpha c && scheme_rest rest
  end.

Definition relative (s : string) : bool := negb (has_scheme s).

End Uri.

(** A page with one profile block, given the [href] of its anchor and
    the [src] of its image. *)
Definition one_block_page (href src : string) : PageElement :=
  Tag "[document]" None []
    [Tag "div" (Some ["actor-item"]) []
       [Tag "a" None [("href", href)] [NavigableString "A"];
        Tag "img" None [("src", src)] []]].

Definition ok_response (soup : PageElement) : HttpOutcome :=
  Responds (mkResponse 200 "OK" soup).

(** A sequence of separate calls of [save_profile], each with its own
    outcome: an exception in one call does not prevent the later ones. *)
Fixpoint save_each (env : Env) (profiles : list Profile) (w : World)
  : list (Result bool) * World :=
  match profiles with
  | [] => ([], w)
  | profile :: rest =>
      let r := save_profile env profile w in
      let rs := save_each env rest (snd r) in
      (fst r :: fst rs, snd rs)
  end.

(** A fetch that [extract_profiles] treats as failed: the GET raised, or
    [raise_for_status] raises for the status code. *)
Definition fetch_error (page : HttpOutcome) : Prop :=
  match page with
  | Fails _ => True
  | Responds response => http_error (status_code response) = true
  end.

(** The world of a first run: an empty table, nothing sent or logged. *)
Definition fresh_world : World := mkWorld [] 0 0 [] [].

(** An environment in which nothing fails. *)
Definition calm_env : Env :=
  mkEnv "-1001" (fun _ => Completes "2025-12-01 10:00:00") (fun _ => None).

(** Sample inputs: a profile block; a page on which only the alternative
    search finds a block; a page with two profile blocks around a block
    that has no anchor. *)
Definition sample_block : PageElement :=
  Tag "div" (Some ["actor-item"]) []
    [Tag "a" None [("href", "/kino/acter/m/ros/1/")] [NavigableString "A"];
     Tag "img" None [("src", "/img/x.jpg")] []].

Definition card_page : PageElement :=
  Tag "[document]" None []
    [Tag "div" (Some ["profile-card"; "wide"]) []
       [Tag "h3" (Some ["card-title"]) [] [NavigableString " Anna Lee "];
        Tag "a" None [("href", "/kino/acter/w/ros/2/")] []];
     Tag "div" (Some ["footer"]) [] [Tag "a" None [("href", "/about")] []]].

Definition three_block_page : PageElement :=
  Tag "[document]" None []
    [Tag "div" (Some ["actor-item"]) []
       [Tag "a" None [("href", "/kino/acter/m/ros/1/")] []];
     Tag "div" (Some ["actor-item"]) []
       [Tag "h3" (Some ["name"]) [] [NavigableString "No link"]];
     Tag "div" (Some ["person-item"]) []
       [Tag "a" None [("href", "https://www.kino-teatr.ru/kino/acter/3/")] []]].

(** The four ways a call of [save_profile] can go. *)
Inductive SaveCase (env : Env) (p : Profile) (w : World) : Result bool * World -> Prop :=
| SaveInserted now :
    sqlite3 env (connections w) = Completes now ->
    stored (url p) (tracked_profiles w) = None ->
    SaveCase env p w
      (Return true,
       mkWorld (tracked_profiles w ++
                [mkRow (sqlite_sequence w + 1) (url p) (name p) (photo p) now])
               (sqlite_sequence w + 1) (S (connections w))
               (telegram w) (log w))
| SaveIgnored now r :
    sqlite3 env (connections w) = Completes now ->
    stored (url p) (tracked_profiles w) = Some r ->
    SaveCase env p w
      (Return false,
       mkWorld (tracked_profiles w) (sqlite_sequence w + 1) (S (connections w))
               (telegram w) (log w))
| SaveStatementFailed msg :
    sqlite3 env (connections w) = StatementFails msg ->
    SaveCase env p w
      (Return false,
       mkWorld (tracked_profiles w) (sqlite_sequence w) (S (connections w))
               (telegram w)
               (log w ++ [mkLog ERROR ("Ошибка при сохранении профиля: " ++ msg)]))
| SaveConnectFailed msg :
    sqlite3 env (connections w) = ConnectFails msg ->
    SaveCase env p w
      (Raise (SqliteError msg),
       mkWorld (tracked_profiles w) (sqlite_sequence w) (S (connections w))
               (telegram w) (log w)).

(** A profile, the same url seen later under another name and with a
    photo, and the row the first sighting leaves in a fresh table. *)
Definition anna : Profile := mkProfile "https://x.test/a" "Anna" None.

Definition anna_renamed : Profile :=
  mkProfile "https://x.test/a" "Anna Lee" (Some "https://x.test/a.jpg").

Definition anna_row : Row :=
  mkRow 1 "https://x.test/a" "Anna" None "2025-12-01 10:00:00".

(** A page answered with the status 300, which is not a 2xx code and for
    which [raise_for_status] does not raise. *)
Definition multiple_choices : HttpOutcome :=
  Responds (mkResponse 300 "Multiple Choices" (one_block_page "/p" "/img/x.jpg")).

(** An environment in which the table cannot be read, as when [/ping]
    arrives before the first cycle has created it. *)
Definition no_table_env : Env :=
  mkEnv "-1001" (fun _ => StatementFails "no such table: tracked_profiles")
        (fun _ => None).

(** An environment in which the first request to Telegram fails. *)
Definition first_send_fails_env : Env :=
  mkEnv "-1001" (fun _ => Completes "2025-12-01 10:00:00")
        (fun n => if Nat.eqb n 0 then Some "Timed out" else None).

(** The wording of line 165 that says the photo could not be loaded. *)
Definition photo_note : string := "(ошибка загрузки фото)".

(** SQLite completes every statement. *)
Definition store_available (env : Env) : Prop :=
  forall n, exists now, sqlite3 env n = Completes now.

(** ** The initialisation and the periodic job *)

(** Lines 34-43: [CREATE TABLE IF NOT EXISTS tracked_profiles (...)]
    followed by [commit].  The world holds the table from the start, a
    table that does not exist yet being an empty one, so a statement that
    completes changes nothing. *)
Definition create_table_if_not_exists (conn : SqliteEvent) : M unit :=
  match conn with
  | Completes _ => ret tt
  | ConnectFails msg | StatementFails msg => raise (SqliteError msg)
  end.

(** [ProfileMonitor.init_database], which is all [ProfileMonitor()]
    does; nothing in it is caught. *)
Definition init_database (env : Env) : M unit :=
  conn <- sqlite3_connect env ;;
  create_table_if_not_exists conn ;;
  logger INFO "База данных инициализирована".

(** [monitor_task]; [page] is the answer to the GET of this cycle. *)
Definition monitor_task (env : Env) (page : HttpOutcome) : M unit :=
  init_database env ;;
  logger INFO "Запуск проверки новых профилей..." ;;
  new_profiles <- get_new_profiles env page ;;
  match new_profiles with
  | _ :: _ =>
      logger INFO ("Найдено новых профилей: " ++
                   Str.of_nat (List.length new_profiles)) ;;
      send_notification env new_profiles
  | [] => logger INFO "Новых профилей не найдено"
  end.

(** ** Further notions *)

(** [c] relates every world to the world it leaves, whatever its
    outcome. *)
Definition keeps (R : World -> World -> Prop) {A} (c : M A) : Prop :=
  forall w, R w (snd (c w)).

Definition same_store (w w' : World) : Prop :=
  tracked_profiles w' = tracked_profiles w /\
  sqlite_sequence w' = sqlite_sequence w.

Definition same_telegram (w w' : World) : Prop :=
  telegram w' = telegram w.

(** The urls of the table, in the order of insertion. *)
Definition stored_urls (w : World) : list string :=
  map profile_url (tracked_profiles w).

(** The table has only grown at its end, every old row still in its
    place, and its urls are still pairwise distinct if they were. *)
Definition only_appends (w w' : World) : Prop :=
  (exists rows, tracked_profiles w' = (tracked_profiles w ++ rows)%list) /\
  (NoDup (stored_urls w) -> NoDup (stored_urls w')).

(** The profiles of a list whose url is neither among [seen] nor earlier
    in the list. *)
Fixpoint first_sightings (seen : list string) (profiles : list Profile)
  : list Profile :=
  match profiles with
  | [] => []
  | p :: rest =>
      if existsb (String.eqb (url p)) seen then first_sightings seen rest
      else p :: first_sightings (seen ++ [url p])%list rest
  end.

(** The first request [notify] makes for a profile (lines 145-155), and
    the one it makes after a failure (lines 163-166). *)
Definition primary_call (env : Env) (p : Profile) : BotCall :=
  match photo_present p with
  | Some s => send_photo (TELEGRAM_CHAT_ID env) s (notification_text p)
  | None => send_message (TELEGRAM_CHAT_ID env) (notification_text p)
  end.

Definition fallback_call (env : Env) (p : Profile) : BotCall :=
  send_message (TELEGRAM_CHAT_ID env) (fallback_text p).

(** The requests for a list of profiles when the next request is the
    [n]-th: each profile gets its first request and, when that one
    fails, the fallback; the fate of the fallback changes nothing. *)
Fixpoint notify_calls (env : Env) (n : nat) (profiles : list Profile)
  : list BotCall :=
  match profiles with
  | [] => []
  | p :: rest =>
      match bot env n with
      | None => primary_call env p :: notify_calls env (S n) rest
      | Some _ =>
          primary_call env p :: fallback_call env p ::
          notify_calls env (S (S n)) rest
      end
  end.

(** The profile a row was made from. *)
Definition row_profile (r : Row) : Profile :=
  mkProfile (profile_url r) (row_name r) (photo_url r).

(** Telegram answers every request. *)
Definition telegram_available (env : Env) : Prop :=
  forall n, bot env n = None.

(** The line of the report about the page (line 188 and line 190). *)
Definition page_line (page : HttpOutcome) : string :=
  match page with
  | Responds r =>
      if (status_code r =? 200)%Z then "✅ Доступна"
      else "❌ Код: " ++ Str.of_Z (status_code r)
  | Fails msg => "❌ Ошибка: " ++ msg
  end.

(** The report of lines 192-199. *)
Definition report_text (check_time : string) (count : Z)
    (db_status page_status : string) : string :=
  "🤖 Статус бота:" ++ Str.nl ++
  "🕐 Время проверки: " ++ check_time ++ Str.nl ++
  "📊 Профилей в базе: " ++ Str.of_Z count ++ Str.nl ++
  "🗄️ База данных: " ++ db_status ++ Str.nl ++
  "🌐 Целевая страница: " ++ page_status ++ Str.nl ++
  "⏰ Следующая проверка через 5 минут".

(** Sample inputs: an environment in which Telegram refuses everything,
    one in which the second connection to SQLite cannot be opened, one in
    which the first statement fails, a page listing one url twice, and a
    response with the status 204. *)
Definition telegram_down_env : Env :=
  mkEnv "-1001" (fun _ => Completes "2025-12-01 10:00:00")
        (fun _ => Some "Bad Gateway").

Definition second_connect_fails_env : Env :=
  mkEnv "-1001"
        (fun n => if Nat.eqb n 1 then ConnectFails "unable to open database file"
                  else Completes "2025-12-01 10:00:00")
        (fun _ => None).

Definition first_statement_fails_env : Env :=
  mkEnv "-1001"
        (fun n => if Nat.eqb n 0 then StatementFails "database is locked"
                  else Completes "2025-12-01 10:00:00")
        (fun _ => None).

Definition twice_listed_page : PageElement :=
  Tag "[document]" None []
    [Tag "div" (Some ["actor-item"]) []
       [Tag "a" None [("href", "/kino/acter/m/ros/1/")] [];
        Tag "div" (Some ["name"]) [] [NavigableString "First"]];
     Tag "div" (Some ["actor-item"]) []
       [Tag "a" None [("href", "/kino/acter/m/ros/1/")] [];
        Tag "div" (Some ["name"]) [] [NavigableString "Second"]]].

Definition no_content : Response := mkResponse 204 "No Content" card_page.

(** ** Strings *)

Lemma prefix_app (n b : string) : String.prefix n (n ++ b) = true.
Proof.
  induction n as [|c n IH]; simpl.
  - destruct b; reflexivity.
  - destruct (ascii_dec c c) as [_|ne]; [exact IH | contradiction].
Qed.

Lemma contains_prefix (n h : string) :
  String.prefix n h = true -> Str.contains n h = true.
Proof. intros H. destruct h; cbn [Str.contains]; rewrite H; reflexivity. Qed.

Lemma contains_app (a n b : string) : Str.contains n (a ++ n ++ b) = true.
Proof.
  induction a as [|c a IH].
  - apply contains_prefix. exact (prefix_app n b).
  - change (Str.contains n (String c (a ++ n ++ b)) = true).
    cbn [Str.contains]. rewrite IH. apply orb_true_r.
Qed.

Lemma startswith_SITE (u : string) : Str.startswith (SITE ++ u) "http" = true.
Proof. reflexivity. Qed.

Lemma absolute_http (u : string) : Str.startswith (absolute u) "http" = true.
Proof.
  unfold absolute. destruct (Str.startswith u "http") eqn:E.
  - exact E.
  - apply startswith_SITE.
Qed.

Lemma absolute_relative (u : string) :
  Str.startswith u "http" = false -> absolute u = SITE ++ u.
Proof. intros E. unfold absolute. rewrite E. reflexivity. Qed.

(** ** Extraction *)

Lemma raise_for_status_ok (r : Response) (w : World) :
  http_error (status_code r) = false -> raise_for_status r w = (Return tt, w).
Proof.
  unfold http_error, raise_for_status. intros H.
  destruct ((400 <=? status_code r) && (status_code r <? 500))%Z eqn:E1.
  - exfalso. apply andb_true_iff in E1. apply andb_false_iff in H. lia.
  - destruct ((500 <=? status_code r) && (status_code r <? 600))%Z eqn:E2.
    + exfalso. apply andb_true_iff in E2. apply andb_false_iff in H. lia.
    + reflexivity.
Qed.

Lemma raise_for_status_error (r : Response) (w : World) :
  http_error (status_code r) = true ->
  exists msg, raise_for_status r w = (Raise (HTTPError msg), w).
Proof.
  unfold http_error, raise_for_status. intros H.
  destruct ((400 <=? status_code r) && (status_code r <? 500))%Z eqn:E1.
  - eexists. reflexivity.
  - destruct ((500 <=? status_code r) && (status_code r <? 600))%Z eqn:E2.
    + eexists. reflexivity.
    + exfalso. apply andb_true_iff in H.
      apply andb_false_iff in E1. apply andb_false_iff in E2. lia.
Qed.

Lemma extract_profiles_ok (r : Response) (w : World) :
  http_error (status_code r) = false ->
  let profiles := parse_blocks (profile_blocks (soup r)) in
  extract_profiles (Responds r) w =
  (Return profiles,
   logged w INFO ("Найдено профилей на странице: " ++
                  Str.of_nat (List.length profiles))).
Proof.
  intros H. unfold extract_profiles, try_except, bind, requests_get, ret.
  rewrite (raise_for_status_ok r w H). reflexivity.
Qed.

Lemma extract_profiles_failed (page : HttpOutcome) (w : World) :
  fetch_error page ->
  exists e,
    extract_profiles page w =
    (Return [], logged w ERROR ("Ошибка при парсинге страницы: " ++ str e)).
Proof.
  destruct page as [r|msg]; simpl; intros H.
  - destruct (raise_for_status_error r w H) as [m Hm].
    exists (HTTPError m).
    unfold extract_profiles, try_except, bind, requests_get, ret.
    rewrite Hm. reflexivity.
  - exists (RequestException msg). reflexivity.
Qed.

(** The extraction always returns, and what it returns does not depend
    on the world it runs in. *)
Lemma extract_profiles_total (page : HttpOutcome) :
  exists profiles, forall w, exists w',
    extract_profiles page w = (Return profiles, w') /\
    tracked_profiles w' = tracked_profiles w /\
    sqlite_sequence w' = sqlite_sequence w /\
    connections w' = connections w /\
    telegram w' = telegram w.
Proof.
  destruct page as [r|msg].
  - destruct (http_error (status_code r)) eqn:H.
    + exists []. intros w.
      destruct (raise_for_status_error r w H) as [m Hm].
      eexists. split.
      * unfold extract_profiles, try_except, bind, requests_get, ret.
        rewrite Hm. reflexivity.
      * repeat split.
    + eexists. intros w. eexists. split.
      * apply (extract_profiles_ok r w H).
      * repeat split.
  - exists []. intros w. eexists. split; [reflexivity | repeat split].
Qed.

Lemma parse_block_valid (b : PageElement) :
  valid_block b = true -> exists p, parse_block b = Some p.
Proof.
  unfold valid_block, parse_block.
  destruct (Soup.find b ["a"] None) as [link|]; [|discriminate].
  destruct (Soup.get link "href") as [href|]; [|discriminate].
  intros ->. eexists. reflexivity.
Qed.

Lemma parse_block_invalid (b : PageElement) :
  valid_block b = false -> parse_block b = None.
Proof.
  unfold valid_block, parse_block.
  destruct (Soup.find b ["a"] None) as [link|]; [|reflexivity].
  destruct (Soup.get link "href") as [href|]; [|reflexivity].
  intros ->. reflexivity.
Qed.

Lemma parse_blocks_app (l1 l2 : list PageElement) :
  parse_blocks (l1 ++ l2)%list = (parse_blocks l1 ++ parse_blocks l2)%list.
Proof.
  induction l1 as [|b l1 IH]; simpl; [reflexivity|].
  destruct (parse_block b); simpl; rewrite IH; reflexivity.
Qed.

Lemma parse_blocks_valid_length (l : list PageElement) :
  forallb valid_block l = true ->
  List.length (parse_blocks l) = List.length l.
Proof.
  induction l as [|b l IH]; simpl; [reflexivity|].
  intros H. apply andb_true_iff in H. destruct H as [Hb Hl].
  destruct (parse_block_valid b Hb) as [p ->]. simpl. rewrite (IH Hl).
  reflexivity.
Qed.


Lemma parse_blocks_http (l : list PageElement) :
  Forall http_entity (parse_blocks l).
Proof.
  induction l as [|b l IH]; simpl; [constructor|].
  destruct (parse_block b) as [p|] eqn:E; [|exact IH].
  constructor; [|exact IH].
  unfold parse_block in E.
  destruct (Soup.find b ["a"] None) as [link|]; [|discriminate].
  destruct (Soup.get link "href") as [href|]; [|discriminate].
  destruct (negb (Str.truthy href)); [discriminate|].
  injection E as <-. split; simpl.
  - apply absolute_http.
  - match goal with |- context [option_map absolute ?o] => destruct o end;
      simpl; [apply absolute_http | exact I].
Qed.

(** C9.  Whatever the page, the extraction returns a list, and every
    entity of that list has a url that starts with "http" and a photo
    that is absent or starts with "http".  Only the prefix is looked at:
    the protocol-relative source "//host/x" comes out with the site
    written in front of it, unchanged otherwise. *)
Theorem extracted_entities_start_with_http (page : HttpOutcome) (w : World) :
  (exists profiles w',
     extract_profiles page w = (Return profiles, w') /\
     Forall http_entity profiles) /\
  fst (extract_profiles (ok_response (one_block_page "/p" "//host/x")) w) =
  Return [mkProfile (SITE ++ "/p") "Неизвестно" (Some (SITE ++ "//host/x"))].
Proof.
  split; [|reflexivity].
  destruct page as [r|msg].
  - destruct (http_error (status_code r)) eqn:H.
    + destruct (extract_profiles_failed (Responds r) w H) as [e He].
      rewrite He. eexists _, _. split; [reflexivity | constructor].
    + rewrite (extract_profiles_ok r w H).
      eexists _, _. split; [reflexivity | apply parse_blocks_http].
  - eexists _, _. split; [reflexivity | constructor].
Qed.

(** C6, as stated, fails: "httpdocs/a.html" is a relative reference (it
    has no scheme), yet the extraction returns it as the url of the
    entity, without the site in front. *)
Lemma relative_href_starting_with_http_is_kept :
  Uri.relative "httpdocs/a.html" = true /\
  fst (extract_profiles
         (ok_response (one_block_page "httpdocs/a.html" "/img/x.jpg"))
         fresh_world) =
  Return [mkProfile "httpdocs/a.html" "Неизвестно"
                    (Some (SITE ++ "/img/x.jpg"))] /\
  "httpdocs/a.html" <> SITE ++ "httpdocs/a.html".
Proof. repeat split. discriminate. Qed.

(** C6, amended.  A block whose first anchor has a non-empty href yields
    an entity; when the href does not start with "http" its url is the
    site followed by the href, and when the source of the first image is
    non-empty and does not start with "http" its photo is the site
    followed by that source.  In particular the source "/img/x.jpg"
    gives the photo SITE ++ "/img/x.jpg". *)
Theorem links_not_starting_with_http_get_site_prefix
    (block link_tag : PageElement) (href : string) :
  Soup.find block ["a"] None = Some link_tag ->
  Soup.get link_tag "href" = Some href ->
  Str.truthy href = true ->
  exists p,
    parse_block block = Some p /\
    (Str.startswith href "http" = false -> url p = SITE ++ href) /\
    (forall img_tag src,
        Soup.find block ["img"] None = Some img_tag ->
        Soup.get img_tag "src" = Some src ->
        Str.truthy src = true ->
        Str.startswith src "http" = false ->
        photo p = Some (SITE ++ src)) /\
    (forall img_tag,
        Soup.find block ["img"] None = Some img_tag ->
        Soup.get img_tag "src" = Some "/img/x.jpg" ->
        photo p = Some (SITE ++ "/img/x.jpg")).
Proof.
  intros Hfind Hget Htruthy.
  unfold parse_block. rewrite Hfind, Hget, Htruthy. simpl negb. cbv iota.
  eexists. split; [reflexivity|]. simpl url. simpl photo.
  split; [apply absolute_relative|].
  assert (Hphoto : forall img_tag src,
             Soup.find block ["img"] None = Some img_tag ->
             Soup.get img_tag "src" = Some src ->
             Str.truthy src = true ->
             Str.startswith src "http" = false ->
             option_map absolute
               match Soup.find block ["img"] None with
               | Some img_tag =>
                   match Soup.get img_tag "src" with
                   | Some src => if Str.truthy src then Some src else None
                   | None => None
                   end
               | None => None
               end = Some (SITE ++ src)).
  { intros img src Hi Hs Ht Hr. rewrite Hi, Hs, Ht. simpl.
    rewrite (absolute_relative src Hr). reflexivity. }
  split.
  - exact Hphoto.
  - intros img Hi Hs. apply (Hphoto img "/img/x.jpg" Hi Hs); reflexivity.
Qed.

Lemma links_not_starting_with_http_witness :
  exists p,
    parse_block sample_block = Some p /\
    (Str.startswith "/kino/acter/m/ros/1/" "http" = false ->
     url p = SITE ++ "/kino/acter/m/ros/1/") /\
    (forall img_tag src,
        Soup.find sample_block ["img"] None = Some img_tag ->
        Soup.get img_tag "src" = Some src ->
        Str.truthy src = true ->
        Str.startswith src "http" = false ->
        photo p = Some (SITE ++ src)) /\
    (forall img_tag,
        Soup.find sample_block ["img"] None = Some img_tag ->
        Soup.get img_tag "src" = Some "/img/x.jpg" ->
        photo p = Some (SITE ++ "/img/x.jpg")).
Proof.
  apply (links_not_starting_with_http_get_site_prefix sample_block
           (Tag "a" None [("href", "/kino/acter/m/ros/1/")]
                [NavigableString "A"])
           "/kino/acter/m/ros/1/"); reflexivity.
Defined.



(** C8.  When the blocks found in the document are N blocks with an
    anchor and a link plus one block without any anchor, wherever that
    one stands, the extraction returns exactly N entities: those of the
    N blocks, in order. *)
Theorem block_without_anchor_is_skipped
    (r : Response) (w : World) (before after : list PageElement)
    (bad : PageElement) :
  http_error (status_code r) = false ->
  profile_blocks (soup r) = (before ++ bad :: after)%list ->
  forallb valid_block (before ++ after) = true ->
  Soup.find bad ["a"] None = None ->
  exists profiles w',
    extract_profiles (Responds r) w = (Return profiles, w') /\
    profiles = parse_blocks (before ++ after) /\
    List.length profiles = List.length (before ++ after)%list.
Proof.
  intros Hok Hblocks Hvalid Hbad.
  rewrite (extract_profiles_ok r w Hok). rewrite Hblocks.
  assert (Hskip : parse_blocks (before ++ bad :: after)
                  = parse_blocks (before ++ after)).
  { rewrite !parse_blocks_app. simpl.
    unfold parse_block at 1. rewrite Hbad. reflexivity. }
  rewrite Hskip. eexists _, _. split; [reflexivity|]. split; [reflexivity|].
  apply parse_blocks_valid_length. exact Hvalid.
Qed.

Lemma block_without_anchor_witness :
  exists profiles w',
    extract_profiles (ok_response three_block_page) fresh_world =
    (Return profiles, w') /\
    List.length profiles = 2.
Proof.
  destruct (block_without_anchor_is_skipped
              (mkResponse 200 "OK" three_block_page) fresh_world
              [Tag "div" (Some ["actor-item"]) []
                 [Tag "a" None [("href", "/kino/acter/m/ros/1/")] []]]
              [Tag "div" (Some ["person-item"]) []
                 [Tag "a" None
                    [("href", "https://www.kino-teatr.ru/kino/acter/3/")] []]]
              (Tag "div" (Some ["actor-item"]) []
                 [Tag "h3" (Some ["name"]) [] [NavigableString "No link"]]))
    as [profiles [w' [H [_ Hlen]]]]; try reflexivity.
  exists profiles, w'. split; [exact H | exact Hlen].
Defined.

(** ** The store *)

Section Store.

Variable env : Env.

Lemma stored_app (u : string) (table : list Row) (row : Row) :
  stored u (table ++ [row]) =
  match stored u table with
  | Some r => Some r
  | None => if String.eqb (profile_url row) u then Some row else None
  end.
Proof.
  unfold stored. induction table as [|r table IH]; simpl.
  - destruct (String.eqb (profile_url row) u); reflexivity.
  - destruct (String.eqb (profile_url r) u); [reflexivity | exact IH].
Qed.

Lemma save_profile_cases (p : Profile) (w : World) :
  SaveCase env p w (save_profile env p w).
Proof.
  unfold save_profile, bind, try_except, sqlite3_connect, insert_or_ignore.
  destruct (sqlite3 env (connections w)) as [now|msg|msg] eqn:E; simpl.
  - destruct (stored (url p) (tracked_profiles w)) as [r|] eqn:S; simpl.
    + eapply SaveIgnored; eassumption.
    + apply SaveInserted; assumption.
  - apply SaveConnectFailed; assumption.
  - apply SaveStatementFailed; assumption.
Qed.

(** No call updates or deletes a stored row. *)
Lemma save_profile_keeps (p : Profile) (w : World) (u : string) (r : Row) :
  stored u (tracked_profiles w) = Some r ->
  stored u (tracked_profiles (snd (save_profile env p w))) = Some r.
Proof.
  intros H. destruct (save_profile_cases p w); simpl; try exact H.
  rewrite stored_app, H. reflexivity.
Qed.

(** A call for a url that is stored does not report it as new and
    leaves the table as it is. *)
Lemma save_profile_known (p : Profile) (w : World) (r : Row) :
  stored (url p) (tracked_profiles w) = Some r ->
  fst (save_profile env p w) <> Return true /\
  tracked_profiles (snd (save_profile env p w)) = tracked_profiles w.
Proof.
  intros H. destruct (save_profile_cases p w); simpl;
    try (split; [discriminate | reflexivity]).
  congruence.
Qed.

(** A call that SQLite does not complete reports nothing new and leaves
    the table as it is. *)
Lemma save_profile_failed (p : Profile) (w : World) :
  (forall now, sqlite3 env (connections w) <> Completes now) ->
  fst (save_profile env p w) <> Return true /\
  tracked_profiles (snd (save_profile env p w)) = tracked_profiles w.
Proof.
  intros H. destruct (save_profile_cases p w); simpl;
    try (split; [discriminate | reflexivity]).
  exfalso. eapply H. eassumption.
Qed.

Lemma save_each_keeps (later : list Profile) (w : World) (u : string) (r : Row) :
  stored u (tracked_profiles w) = Some r ->
  stored u (tracked_profiles (snd (save_each env later w))) = Some r.
Proof.
  revert w. induction later as [|q later IH]; intros w H; simpl.
  - exact H.
  - apply IH. apply save_profile_keeps. exact H.
Qed.

Lemma save_each_known (later : list Profile) (w : World) (u : string) (r : Row) :
  stored u (tracked_profiles w) = Some r ->
  Forall2 (fun q res => url q = u -> res <> Return true)
          later (fst (save_each env later w)).
Proof.
  revert w. induction later as [|q later IH]; intros w H; simpl.
  - constructor.
  - constructor.
    + intros <-. apply (save_profile_known q w r H).
    + apply IH. apply save_profile_keeps. exact H.
Qed.

Lemma save_profile_connections (p : Profile) (w : World) :
  connections (snd (save_profile env p w)) = S (connections w).
Proof. destruct (save_profile_cases p w); reflexivity. Qed.

(** A call for a url that is stored, on a connection that opens, returns
    [False]. *)
Lemma save_profile_known_false (p : Profile) (w : World) (r : Row) :
  stored (url p) (tracked_profiles w) = Some r ->
  (forall msg, sqlite3 env (connections w) <> ConnectFails msg) ->
  fst (save_profile env p w) = Return false.
Proof.
  intros Hs Hopen.
  destruct (save_profile_cases p w) as [now E S|now r' E S|msg E|msg E];
    cbn [fst]; try reflexivity.
  - congruence.
  - exfalso. apply (Hopen msg). exact E.
Qed.

Lemma save_each_known_false (later : list Profile) :
  forall (w : World) (u : string) (r : Row) (i : nat) (q : Profile),
    stored u (tracked_profiles w) = Some r ->
    nth_error later i = Some q ->
    url q = u ->
    (forall msg, sqlite3 env (connections w + i) <> ConnectFails msg) ->
    nth_error (fst (save_each env later w)) i = Some (Return false).
Proof.
  induction later as [|q0 later IH]; intros w u r i q Hs Hq Hu Hopen.
  - destruct i; discriminate.
  - destruct i as [|i]; cbn [save_each fst nth_error] in *.
    + injection Hq as ->. subst u. f_equal.
      apply (save_profile_known_false q w r Hs).
      rewrite Nat.add_0_r in Hopen. exact Hopen.
    + apply (IH _ u r i q); try assumption.
      * apply save_profile_keeps. exact Hs.
      * rewrite save_profile_connections.
        rewrite Nat.add_succ_r in Hopen. exact Hopen.
Qed.

End Store.

(** C7.  A call of [save_profile] that SQLite completes, for a url that
    is not stored, reports the profile as new and stores its row.  From
    then on every call for that url, whatever name and photo it carries,
    returns [False] whenever its connection opens (it raises when the
    connection cannot be opened, and in no case reports the url as new),
    and the row stored for the url stays the one the first call wrote.
    No sequence of calls changes or removes a stored row, and a call that
    SQLite does not complete reports nothing new and leaves the table as
    it is. *)
Theorem only_first_insert_is_new
    (env : Env) (p : Profile) (w : World) (now : string) :
  sqlite3 env (connections w) = Completes now ->
  stored (url p) (tracked_profiles w) = None ->
  let first := save_profile env p w in
  let row := mkRow (sqlite_sequence w + 1) (url p) (name p) (photo p) now in
  fst first = Return true /\
  stored (url p) (tracked_profiles (snd first)) = Some row /\
  (forall later : list Profile,
      let rest := save_each env later (snd first) in
      (forall (i : nat) (q : Profile),
          nth_error later i = Some q ->
          url q = url p ->
          (forall msg,
              sqlite3 env (connections (snd first) + i) <> ConnectFails msg) ->
          nth_error (fst rest) i = Some (Return false)) /\
      Forall2 (fun q res => url q = url p -> res <> Return true)
              later (fst rest) /\
      stored (url p) (tracked_profiles (snd rest)) = Some row) /\
  (forall (calls : list Profile) (w0 : World) (u : string) (r : Row),
      stored u (tracked_profiles w0) = Some r ->
      stored u (tracked_profiles (snd (save_each env calls w0))) = Some r) /\
  (forall (q : Profile) (w0 : World),
      (forall t, sqlite3 env (connections w0) <> Completes t) ->
      fst (save_profile env q w0) <> Return true /\
      tracked_profiles (snd (save_profile env q w0)) = tracked_profiles w0).
Proof.
  intros Hcompletes Habsent first row.
  assert (Hfirst : fst first = Return true /\
                   stored (url p) (tracked_profiles (snd first)) = Some row).
  { subst first row. destruct (save_profile_cases env p w); simpl;
      try congruence.
    split; [reflexivity|].
    rewrite stored_app, Habsent. simpl. rewrite String.eqb_refl.
    congruence. }
  destruct Hfirst as [Hnew Hrow].
  split; [exact Hnew|]. split; [exact Hrow|]. split; [|split].
  - intros later rest. subst rest. split; [|split].
    + intros i q Hq Hu Hopen.
      apply (save_each_known_false env later (snd first) (url p) row i q
               Hrow Hq Hu Hopen).
    + apply (save_each_known env later (snd first) (url p) row Hrow).
    + apply save_each_keeps. exact Hrow.
  - intros calls w0 u r. apply save_each_keeps.
  - intros q w0. apply save_profile_failed.
Qed.

Lemma only_first_insert_witness :
  fst (save_profile calm_env anna fresh_world) = Return true /\
  stored "https://x.test/a"
         (tracked_profiles (snd (save_profile calm_env anna fresh_world)))
  = Some anna_row /\
  nth_error
    (fst (save_each calm_env [anna_renamed]
            (snd (save_profile calm_env anna fresh_world)))) 0
  = Some (Return false) /\
  Forall2 (fun q res => url q = "https://x.test/a" -> res <> Return true)
          [anna_renamed]
          (fst (save_each calm_env [anna_renamed]
                  (snd (save_profile calm_env anna fresh_world)))) /\
  stored "https://x.test/a"
         (tracked_profiles
            (snd (save_each calm_env [anna_renamed]
                    (snd (save_profile calm_env anna fresh_world)))))
  = Some anna_row.
Proof.
  destruct (only_first_insert_is_new calm_env anna fresh_world
              "2025-12-01 10:00:00" eq_refl eq_refl)
    as [Hnew [Hrow [Hlater _]]].
  split; [exact Hnew|]. split; [exact Hrow|].
  destruct (Hlater [anna_renamed]) as [Hfalse Hrest].
  split; [|exact Hrest].
  apply (Hfalse 0 anna_renamed eq_refl eq_refl).
  intros msg. discriminate.
Defined.

(** ** One cycle of the monitor *)

Lemma keep_new_all_new (env : Env) (profiles : list Profile) :
  store_available env ->
  forall w,
    NoDup (map url profiles) ->
    (forall p, In p profiles -> stored (url p) (tracked_profiles w) = None) ->
    exists w',
      keep_new env profiles w = (Return profiles, w') /\
      (forall p, In p profiles ->
                 stored (url p) (tracked_profiles w') <> None) /\
      (forall u, stored u (tracked_profiles w) <> None ->
                 stored u (tracked_profiles w') <> None).
Proof.
  intros Havail. induction profiles as [|p rest IH]; intros w Hdup Hfresh.
  - exists w. split; [reflexivity|]. split; [intros p []|auto].
  - simpl in Hdup. inversion Hdup as [|x l Hnotin Hdup']; subst.
    cbn [keep_new]. unfold bind at 1.
    destruct (save_profile_cases env p w) as [now E Hs|now r E Hs|msg E|msg E].
    + set (row := mkRow (sqlite_sequence w + 1) (url p) (name p) (photo p) now).
      set (w1 := mkWorld _ _ _ _ _).
      assert (Hstep : forall u, stored u (tracked_profiles w1) =
                match stored u (tracked_profiles w) with
                | Some r => Some r
                | None => if String.eqb (url p) u then Some row else None
                end).
      { intros u. subst w1. simpl. apply stored_app. }
      destruct (IH w1 Hdup') as [w' [Hrun [Hall Hkeep]]].
      { intros q Hq. rewrite Hstep, (Hfresh q (or_intror Hq)).
        destruct (String.eqb_spec (url p) (url q)) as [Heq|]; [|reflexivity].
        exfalso. apply Hnotin. rewrite Heq. apply in_map. exact Hq. }
      exists w'. unfold bind. rewrite Hrun. split; [reflexivity|]. split.
      * intros q [<-|Hq]; [|apply Hall; exact Hq].
        apply Hkeep. rewrite Hstep, Hs, String.eqb_refl. discriminate.
      * intros u Hu. apply Hkeep. rewrite Hstep.
        destruct (stored u (tracked_profiles w)); [discriminate|].
        contradiction.
    + rewrite (Hfresh p (or_introl eq_refl)) in Hs. discriminate.
    + destruct (Havail (connections w)) as [t Ht]. congruence.
    + destruct (Havail (connections w)) as [t Ht]. congruence.
Qed.

Lemma keep_new_none_new (env : Env) (profiles : list Profile) :
  store_available env ->
  forall w,
    (forall p, In p profiles -> stored (url p) (tracked_profiles w) <> None) ->
    exists w',
      keep_new env profiles w = (Return [], w') /\
      tracked_profiles w' = tracked_profiles w.
Proof.
  intros Havail. induction profiles as [|p rest IH]; intros w Hknown.
  - exists w. split; reflexivity.
  - cbn [keep_new]. unfold bind at 1.
    destruct (save_profile_cases env p w) as [now E Hs|now r E Hs|msg E|msg E].
    + exfalso. apply (Hknown p (or_introl eq_refl)). exact Hs.
    + set (w1 := mkWorld _ _ _ _ _).
      destruct (IH w1) as [w' [Hrun Htable]].
      { intros q Hq. apply (Hknown q (or_intror Hq)). }
      exists w'. unfold bind. rewrite Hrun. split; [reflexivity | exact Htable].
    + destruct (Havail (connections w)) as [t Ht]. congruence.
    + destruct (Havail (connections w)) as [t Ht]. congruence.
Qed.

Lemma calm_env_available : store_available calm_env.
Proof. intros n. eexists. reflexivity. Qed.

(** C1.  With the store answering, and none of the urls of the page
    stored yet, two runs of [get_new_profiles] on the same page whose
    entities have distinct urls go as follows: the first returns every
    extracted entity, the second returns none and leaves the table as
    the first left it. *)
Theorem second_pass_reports_nothing_new
    (env : Env) (page : HttpOutcome) (w w1 : World) (profiles : list Profile) :
  store_available env ->
  extract_profiles page w = (Return profiles, w1) ->
  NoDup (map url profiles) ->
  (forall p, In p profiles -> stored (url p) (tracked_profiles w) = None) ->
  exists w2 w3,
    get_new_profiles env page w = (Return profiles, w2) /\
    get_new_profiles env page w2 = (Return [], w3) /\
    tracked_profiles w3 = tracked_profiles w2.
Proof.
  intros Havail Hextract Hdup Hfresh.
  destruct (extract_profiles_total page) as [ps Hps].
  destruct (Hps w) as [w1' [E1 [T1 _]]].
  rewrite Hextract in E1. injection E1 as <- <-.
  destruct (keep_new_all_new env profiles Havail w1 Hdup)
    as [w2 [Hrun [Hall _]]].
  { intros p Hp. rewrite T1. apply Hfresh. exact Hp. }
  destruct (Hps w2) as [w2' [E2 [T2 _]]].
  destruct (keep_new_none_new env profiles Havail w2') as [w3 [Hrun2 T3]].
  { intros p Hp. rewrite T2. apply Hall. exact Hp. }
  exists w2, w3. unfold get_new_profiles, bind.
  rewrite Hextract, Hrun, E2, Hrun2.
  split; [reflexivity|]. split; [reflexivity|]. congruence.
Qed.

Lemma second_pass_witness :
  exists w2 w3,
    get_new_profiles calm_env (ok_response three_block_page) fresh_world =
    (Return [mkProfile (SITE ++ "/kino/acter/m/ros/1/") "Неизвестно" None;
             mkProfile "https://www.kino-teatr.ru/kino/acter/3/"
                       "Неизвестно" None], w2) /\
    get_new_profiles calm_env (ok_response three_block_page) w2 =
    (Return [], w3) /\
    tracked_profiles w3 = tracked_profiles w2.
Proof.
  eapply (second_pass_reports_nothing_new calm_env
            (ok_response three_block_page) fresh_world).
  - exact calm_env_available.
  - reflexivity.
  - repeat constructor; simpl; intuition discriminate.
  - intros p _. reflexivity.
Defined.

(** C3, as stated, fails: the status 300 is outside the 2xx range, yet
    the page is parsed, its entity is returned as new and stored, and no
    error is logged. *)
Lemma status_300_is_not_a_fetch_error :
  is_2xx 300 = false /\
  get_new_profiles calm_env multiple_choices fresh_world =
  (Return [mkProfile (SITE ++ "/p") "Неизвестно" (Some (SITE ++ "/img/x.jpg"))],
   mkWorld [mkRow 1 (SITE ++ "/p") "Неизвестно" (Some (SITE ++ "/img/x.jpg"))
                  "2025-12-01 10:00:00"]
           1 1 [] [mkLog INFO "Найдено профилей на странице: 1"]).
Proof. split; reflexivity. Qed.

(** C3, amended.  A GET that raises (timeout, DNS, connection reset) and
    a response with a 4xx or 5xx status are handled in the same way: the
    cycle logs one error that carries the text of the exception and
    returns the empty list; the table, the connection count and the
    requests to Telegram stay as they were. *)
Theorem fetch_error_gives_empty_cycle
    (env : Env) (page : HttpOutcome) (w : World) :
  fetch_error page ->
  exists e,
    get_new_profiles env page w =
    (Return [], logged w ERROR ("Ошибка при парсинге страницы: " ++ str e)).
Proof.
  intros H. destruct (extract_profiles_failed page w H) as [e He].
  exists e. unfold get_new_profiles, bind. rewrite He. reflexivity.
Qed.

Lemma fetch_error_witness :
  (exists e,
      get_new_profiles calm_env
        (Responds (mkResponse 503 "Service Unavailable" three_block_page))
        fresh_world =
      (Return [], logged fresh_world ERROR
                         ("Ошибка при парсинге страницы: " ++ str e))) /\
  (exists e,
      get_new_profiles calm_env (Fails "Read timed out.") fresh_world =
      (Return [], logged fresh_world ERROR
                         ("Ошибка при парсинге страницы: " ++ str e))).
Proof.
  split.
  - apply (fetch_error_gives_empty_cycle calm_env
             (Responds (mkResponse 503 "Service Unavailable" three_block_page))
             fresh_world).
    reflexivity.
  - apply (fetch_error_gives_empty_cycle calm_env (Fails "Read timed out.")
             fresh_world).
    exact I.
Defined.

(** ** Notifications *)

Lemma append_empty (s : string) : s ++ EmptyString = s.
Proof. induction s as [|c s IH]; simpl; [reflexivity | rewrite IH; reflexivity]. Qed.

Lemma contains_app_end (a n : string) : Str.contains n (a ++ n) = true.
Proof. rewrite <- (append_empty n) at 2. apply contains_app. Qed.

Lemma contains_right (a n h : string) :
  Str.contains n h = true -> Str.contains n (a ++ h) = true.
Proof.
  intros H. induction a as [|c a IH]; [exact H|].
  change (Str.contains n (String c (a ++ h)) = true).
  cbn [Str.contains]. rewrite IH. apply orb_true_r.
Qed.

Lemma fallback_text_mentions (p : Profile) :
  Str.contains (name p) (fallback_text p) = true /\
  Str.contains (url p) (fallback_text p) = true /\
  Str.contains photo_note (fallback_text p) = true.
Proof.
  split; [|split].
  - exact (contains_app
             ("🎭 Новый профиль (ошибка загрузки фото):" ++ Str.nl ++ "👤 ")
             (name p) (Str.nl ++ "🔗 " ++ url p)).
  - apply (contains_right
             ("🎭 Новый профиль (ошибка загрузки фото):" ++ Str.nl ++ "👤 ")).
    apply (contains_right (name p)).
    exact (contains_app_end (Str.nl ++ "🔗 ") (url p)).
  - exact (contains_app "🎭 Новый профиль " photo_note
             (":" ++ Str.nl ++ "👤 " ++ name p ++ Str.nl ++ "🔗 " ++ url p)).
Qed.

(** What [notify] does once its first request has failed: one
    [send_message] with the fallback text, whatever becomes of it. *)
Lemma notify_after_failure (env : Env) (p : Profile) (w : World)
    (first : BotCall) (msg : string) :
  (match photo_present p with
   | Some s => send_photo (TELEGRAM_CHAT_ID env) s (notification_text p)
   | None => send_message (TELEGRAM_CHAT_ID env) (notification_text p)
   end) = first ->
  bot env (List.length (telegram w)) = Some msg ->
  exists w',
    notify env p w = (Return tt, w') /\
    telegram w' =
    (telegram w ++
     [first; send_message (TELEGRAM_CHAT_ID env) (fallback_text p)])%list /\
    tracked_profiles w' = tracked_profiles w.
Proof.
  intros Hfirst Hfail.
  unfold notify, try_except, bind.
  assert (Hcall : (match photo_present p with
                   | Some s => call_bot env (send_photo (TELEGRAM_CHAT_ID env) s
                                                        (notification_text p))
                   | None => call_bot env (send_message (TELEGRAM_CHAT_ID env)
                                                        (notification_text p))
                   end) = call_bot env first).
  { rewrite <- Hfirst. destruct (photo_present p); reflexivity. }
  rewrite Hcall. unfold call_bot at 1. rewrite Hfail.
  unfold logger, call_bot. simpl.
  destruct (bot env (List.length (telegram w ++ [first])));
    eexists; (split; [reflexivity|]); simpl;
    rewrite <- app_assoc; split; reflexivity.
Qed.

(** C4.  For an entity with a photo, when the request that sends the
    photo with its caption fails, the notifier makes exactly one more
    request for it: a [send_message] whose text contains the name and the
    url of the entity and the note that the photo could not be loaded.
    The notifier then goes on with the remaining entities. *)
Theorem failed_photo_falls_back_to_text
    (env : Env) (p : Profile) (rest : list Profile) (w : World)
    (s msg : string) :
  photo p = Some s ->
  Str.truthy s = true ->
  bot env (List.length (telegram w)) = Some msg ->
  exists w',
    send_notification env (p :: rest) w = send_notification env rest w' /\
    telegram w' =
    (telegram w ++
     [send_photo (TELEGRAM_CHAT_ID env) s (notification_text p);
      send_message (TELEGRAM_CHAT_ID env) (fallback_text p)])%list /\
    Str.contains (name p) (fallback_text p) = true /\
    Str.contains (url p) (fallback_text p) = true /\
    Str.contains photo_note (fallback_text p) = true.
Proof.
  intros Hphoto Htruthy Hfail.
  destruct (notify_after_failure env p w
              (send_photo (TELEGRAM_CHAT_ID env) s (notification_text p)) msg)
    as [w' [Hrun [Hsent _]]].
  { unfold photo_present. rewrite Hphoto, Htruthy. reflexivity. }
  { exact Hfail. }
  exists w'. cbn [send_notification]. unfold bind at 1. rewrite Hrun.
  split; [reflexivity|]. split; [exact Hsent|]. apply fallback_text_mentions.
Qed.

Lemma failed_photo_witness :
  exists w',
    send_notification first_send_fails_env [anna_renamed] fresh_world =
    (Return tt, w') /\
    telegram w' =
    [send_photo "-1001" "https://x.test/a.jpg" (notification_text anna_renamed);
     send_message "-1001" (fallback_text anna_renamed)].
Proof.
  destruct (failed_photo_falls_back_to_text first_send_fails_env anna_renamed
              [] fresh_world "https://x.test/a.jpg" "Timed out"
              eq_refl eq_refl eq_refl) as [w' [Hrun [Hsent _]]].
  exists w'. split; [exact Hrun | exact Hsent].
Defined.

(** C10.  The fallback does not look at why the first request failed:
    for an entity without a photo, when the [send_message] with the
    notification fails, the notifier makes a second [send_message], with
    the fallback text, which contains the name and the url of the entity
    and the note about the photo. *)
Theorem failed_text_is_sent_again
    (env : Env) (p : Profile) (rest : list Profile) (w : World) (msg : string) :
  photo p = None ->
  bot env (List.length (telegram w)) = Some msg ->
  exists w',
    send_notification env (p :: rest) w = send_notification env rest w' /\
    telegram w' =
    (telegram w ++
     [send_message (TELEGRAM_CHAT_ID env) (notification_text p);
      send_message (TELEGRAM_CHAT_ID env) (fallback_text p)])%list /\
    Str.contains (name p) (fallback_text p) = true /\
    Str.contains (url p) (fallback_text p) = true /\
    Str.contains photo_note (fallback_text p) = true.
Proof.
  intros Hphoto Hfail.
  destruct (notify_after_failure env p w
              (send_message (TELEGRAM_CHAT_ID env) (notification_text p)) msg)
    as [w' [Hrun [Hsent _]]].
  { unfold photo_present. rewrite Hphoto. reflexivity. }
  { exact Hfail. }
  exists w'. cbn [send_notification]. unfold bind at 1. rewrite Hrun.
  split; [reflexivity|]. split; [exact Hsent|]. apply fallback_text_mentions.
Qed.

Lemma failed_text_witness :
  exists w',
    send_notification first_send_fails_env [anna] fresh_world =
    (Return tt, w') /\
    telegram w' =
    [send_message "-1001" (notification_text anna);
     send_message "-1001" (fallback_text anna)].
Proof.
  destruct (failed_text_is_sent_again first_send_fails_env anna
              [] fresh_world "Timed out" eq_refl eq_refl)
    as [w' [Hrun [Hsent _]]].
  exists w'. split; [exact Hrun | exact Hsent].
Defined.

(** ** The status command *)

(** X13.  When the table can be read and the reply goes through, the
    command returns after one reply whose text has the time of the
    check, the number of stored profiles and the mark that the store
    works. *)
Lemma ping_reports_when_store_answers
    (env : Env) (check_time now : string) (page : HttpOutcome) (w : World) :
  sqlite3 env (connections w) = Completes now ->
  bot env (List.length (telegram w)) = None ->
  exists text w',
    ping_command env check_time page w = (Return tt, w') /\
    telegram w' = (telegram w ++ [reply_text text])%list /\
    Str.contains check_time text = true /\
    Str.contains (Str.of_nat (List.length (tracked_profiles w))) text = true /\
    Str.contains "✅ Работает" text = true.
Proof.
  intros H Hbot.
  unfold ping_command, bind, try_except, sqlite3_connect, select_count.
  rewrite H. cbn [fst snd ret].
  assert (Hreport : forall page_status,
    let text :=
      "🤖 Статус бота:" ++ Str.nl ++
      "🕐 Время проверки: " ++ check_time ++ Str.nl ++
      "📊 Профилей в базе: " ++
      Str.of_nat (List.length (tracked_profiles w)) ++ Str.nl ++
      "🗄️ База данных: " ++ "✅ Работает" ++ Str.nl ++
      "🌐 Целевая страница: " ++ page_status ++ Str.nl ++
      "⏰ Следующая проверка через 5 минут" in
    Str.contains check_time text = true /\
    Str.contains (Str.of_nat (List.length (tracked_profiles w))) text = true /\
    Str.contains "✅ Работает" text = true).
  { intros page_status text. subst text. split; [|split].
    - exact (contains_app ("🤖 Статус бота:" ++ Str.nl ++ "🕐 Время проверки: ")
                          check_time _).
    - apply (contains_right
               ("🤖 Статус бота:" ++ Str.nl ++ "🕐 Время проверки: ")).
      apply (contains_right check_time).
      exact (contains_app (Str.nl ++ "📊 Профилей в базе: ") _ _).
    - apply (contains_right
               ("🤖 Статус бота:" ++ Str.nl ++ "🕐 Время проверки: ")).
      apply (contains_right check_time).
      apply (contains_right (Str.nl ++ "📊 Профилей в базе: ")).
      apply (contains_right (Str.of_nat (List.length (tracked_profiles w)))).
      exact (contains_app (Str.nl ++ "🗄️ База данных: ") "✅ Работает" _). }
  destruct page as [r|msg]; cbn [requests_get ret raise];
    unfold call_bot; cbn [telegram]; rewrite Hbot;
    eexists; eexists; (split; [reflexivity|]);
    (split; [reflexivity|]); apply Hreport.
Qed.

(** C2 does not hold when the check of the store fails: [count] was
    never assigned, so building the report raises [UnboundLocalError];
    the exception leaves the command and no reply is sent. *)
Theorem ping_raises_when_store_check_fails
    (env : Env) (check_time : string) (page : HttpOutcome) (w : World) :
  (forall now, sqlite3 env (connections w) <> Completes now) ->
  exists w',
    ping_command env check_time page w =
    (Raise (UnboundLocalError "count"), w') /\
    telegram w' = telegram w.
Proof.
  intros H.
  unfold ping_command, bind, try_except, sqlite3_connect, select_count.
  destruct (sqlite3 env (connections w)) as [now|msg|msg] eqn:E.
  - exfalso. apply (H now). reflexivity.
  - destruct page; eexists; split; reflexivity.
  - destruct page; eexists; split; reflexivity.
Qed.

Lemma ping_raises_witness :
  exists w',
    ping_command no_table_env "2025-12-01 10:00:05"
      (ok_response three_block_page) fresh_world =
    (Raise (UnboundLocalError "count"), w') /\
    telegram w' = [].
Proof.
  apply (ping_raises_when_store_check_fails no_table_env
           "2025-12-01 10:00:05" (ok_response three_block_page) fresh_world).
  intros now. discriminate.
Defined.

(** ** What the operations leave alone *)

Section Frame.

Variable R : World -> World -> Prop.
Hypothesis R_refl : forall w, R w w.
Hypothesis R_trans : forall a b c, R a b -> R b c -> R a c.

Lemma keeps_ret {A} (a : A) : keeps R (ret a).
Proof. intros w. apply R_refl. Qed.

Lemma keeps_raise {A} (e : Exception) : keeps R (@raise A e).
Proof. intros w. apply R_refl. Qed.

Lemma keeps_bind {A B} (c : M A) (k : A -> M B) :
  keeps R c -> (forall a, keeps R (k a)) -> keeps R (bind c k).
Proof.
  intros Hc Hk w. unfold bind. specialize (Hc w).
  destruct (c w) as [[a|e] w1]; simpl in *.
  - eapply R_trans; [exact Hc | apply Hk].
  - exact Hc.
Qed.

Lemma keeps_try_except {A} (body : M A) (handler : Exception -> M A) :
  keeps R body -> (forall e, keeps R (handler e)) ->
  keeps R (try_except body handler).
Proof.
  intros Hb Hh w. unfold try_except. specialize (Hb w).
  destruct (body w) as [[a|e] w1]; simpl in *.
  - exact Hb.
  - eapply R_trans; [exact Hb | apply Hh].
Qed.

End Frame.

Lemma same_store_refl (w : World) : same_store w w.
Proof. split; reflexivity. Qed.

Lemma same_store_trans (a b c : World) :
  same_store a b -> same_store b c -> same_store a c.
Proof. unfold same_store. intros [H1 H2] [H3 H4]. split; congruence. Qed.

Lemma same_telegram_refl (w : World) : same_telegram w w.
Proof. reflexivity. Qed.

Lemma same_telegram_trans (a b c : World) :
  same_telegram a b -> same_telegram b c -> same_telegram a c.
Proof. unfold same_telegram. congruence. Qed.

Lemma only_appends_refl (w : World) : only_appends w w.
Proof.
  split; [|auto]. exists []. rewrite app_nil_r. reflexivity.
Qed.

Lemma only_appends_trans (a b c : World) :
  only_appends a b -> only_appends b c -> only_appends a c.
Proof.
  intros [[r1 H1] U1] [[r2 H2] U2]. split; [|auto].
  exists (r1 ++ r2)%list. rewrite H2, H1, app_assoc. reflexivity.
Qed.

Lemma same_store_only_appends (w w' : World) :
  same_store w w' -> only_appends w w'.
Proof.
  intros [Ht _]. unfold only_appends, stored_urls. rewrite Ht.
  split; [|auto]. exists []. rewrite app_nil_r. reflexivity.
Qed.

Create HintDb frame.

(** Splits a monadic term into its primitive steps. *)
Ltac frame refl trans :=
  repeat first
    [ solve [auto with frame]
    | apply (keeps_ret _ refl)
    | apply (keeps_raise _ refl)
    | apply (keeps_bind _ trans)
    | apply (keeps_try_except _ trans)
    | progress intros
    | match goal with
      | |- keeps _ (match ?x with _ => _ end) => destruct x
      end ].

Lemma logger_same_store lvl msg : keeps same_store (logger lvl msg).
Proof. intros w. split; reflexivity. Qed.

Lemma logger_same_telegram lvl msg : keeps same_telegram (logger lvl msg).
Proof. intros w. reflexivity. Qed.

Lemma connect_same_store env : keeps same_store (sqlite3_connect env).
Proof.
  intros w. unfold sqlite3_connect.
  destruct (sqlite3 env (connections w)); split; reflexivity.
Qed.

Lemma connect_same_telegram env : keeps same_telegram (sqlite3_connect env).
Proof.
  intros w. unfold sqlite3_connect.
  destruct (sqlite3 env (connections w)); reflexivity.
Qed.

Lemma call_bot_same_store env call : keeps same_store (call_bot env call).
Proof.
  intros w. unfold call_bot.
  destruct (bot env (List.length (telegram w))); split; reflexivity.
Qed.

Lemma select_count_same_store conn : keeps same_store (select_count conn).
Proof. intros w. destruct conn; split; reflexivity. Qed.

Lemma insert_same_telegram conn p : keeps same_telegram (insert_or_ignore conn p).
Proof.
  intros w. unfold insert_or_ignore.
  destruct conn; [destruct (stored (url p) (tracked_profiles w))|..];
    reflexivity.
Qed.

#[local] Hint Resolve logger_same_store logger_same_telegram
  connect_same_store connect_same_telegram call_bot_same_store
  select_count_same_store insert_same_telegram : frame.

Lemma extract_profiles_same_store page : keeps same_store (extract_profiles page).
Proof.
  unfold extract_profiles, requests_get, raise_for_status.
  frame same_store_refl same_store_trans.
Qed.

#[local] Hint Resolve extract_profiles_same_store : frame.

Lemma extract_profiles_same_telegram page :
  keeps same_telegram (extract_profiles page).
Proof.
  unfold extract_profiles, requests_get, raise_for_status.
  frame same_telegram_refl same_telegram_trans.
Qed.

#[local] Hint Resolve extract_profiles_same_telegram : frame.

Lemma init_database_same_store env : keeps same_store (init_database env).
Proof.
  unfold init_database, create_table_if_not_exists.
  frame same_store_refl same_store_trans.
Qed.

#[local] Hint Resolve init_database_same_store : frame.

Lemma init_database_same_telegram env : keeps same_telegram (init_database env).
Proof.
  unfold init_database, create_table_if_not_exists.
  frame same_telegram_refl same_telegram_trans.
Qed.

#[local] Hint Resolve init_database_same_telegram : frame.

Lemma save_profile_same_telegram env p : keeps same_telegram (save_profile env p).
Proof.
  unfold save_profile.
  frame same_telegram_refl same_telegram_trans.
Qed.

#[local] Hint Resolve save_profile_same_telegram : frame.

Lemma keep_new_same_telegram env ps : keeps same_telegram (keep_new env ps).
Proof.
  induction ps as [|p rest IH]; cbn [keep_new];
    frame same_telegram_refl same_telegram_trans.
Qed.

#[local] Hint Resolve keep_new_same_telegram : frame.

Lemma get_new_profiles_same_telegram env page :
  keeps same_telegram (get_new_profiles env page).
Proof.
  unfold get_new_profiles.
  frame same_telegram_refl same_telegram_trans.
Qed.

#[local] Hint Resolve get_new_profiles_same_telegram : frame.

Lemma notify_same_store env p : keeps same_store (notify env p).
Proof.
  unfold notify.
  frame same_store_refl same_store_trans.
Qed.

#[local] Hint Resolve notify_same_store : frame.

Lemma send_notification_same_store env ps :
  keeps same_store (send_notification env ps).
Proof.
  induction ps as [|p rest IH]; cbn [send_notification];
    frame same_store_refl same_store_trans.
Qed.

#[local] Hint Resolve send_notification_same_store : frame.

Lemma ping_command_same_store env check_time page :
  keeps same_store (ping_command env check_time page).
Proof.
  unfold ping_command, requests_get.
  frame same_store_refl same_store_trans.
Qed.

#[local] Hint Resolve ping_command_same_store : frame.

(** ** The table only grows *)

Lemma stored_None_iff (u : string) (table : list Row) :
  stored u table = None <-> ~ In u (map profile_url table).
Proof.
  unfold stored. induction table as [|r table IH]; simpl.
  - split; [intros _ [] | reflexivity].
  - destruct (String.eqb_spec (profile_url r) u) as [E|N].
    + split; [discriminate | intros H; exfalso; apply H; left; exact E].
    + rewrite IH. split; [intros H [F|F]; auto | intros H F; apply H; auto].
Qed.

Lemma NoDup_snoc {A} (l : list A) (x : A) :
  NoDup l -> ~ In x l -> NoDup (l ++ [x]).
Proof.
  induction l as [|a l IH]; simpl; intros Hd Hx.
  - constructor; [intros [] | constructor].
  - inversion Hd as [|b l' Ha Hl]; subst. constructor.
    + rewrite in_app_iff. simpl. intros [F|[F|[]]]; [auto | subst; auto].
    + apply IH; auto.
Qed.

Lemma keeps_same_store_appends {A} (c : M A) :
  keeps same_store c -> keeps only_appends c.
Proof. intros H w. apply same_store_only_appends, H. Qed.

Lemma save_profile_only_appends env p : keeps only_appends (save_profile env p).
Proof.
  intros w.
  destruct (save_profile_cases env p w) as [now E Hs|now r E Hs|msg E|msg E];
    cbn [snd]; try apply (only_appends_refl w).
  unfold only_appends, stored_urls. cbn [tracked_profiles]. split.
  - eexists. reflexivity.
  - intros Hurls. rewrite map_app. cbn [map profile_url].
    apply NoDup_snoc; [exact Hurls | apply stored_None_iff; exact Hs].
Qed.

#[local] Hint Resolve save_profile_only_appends : frame.

Lemma keep_new_only_appends env ps : keeps only_appends (keep_new env ps).
Proof.
  induction ps as [|p rest IH]; cbn [keep_new];
    frame only_appends_refl only_appends_trans.
Qed.

Lemma get_new_profiles_only_appends env page :
  keeps only_appends (get_new_profiles env page).
Proof.
  unfold get_new_profiles.
  apply (keeps_bind _ only_appends_trans).
  - apply keeps_same_store_appends, extract_profiles_same_store.
  - intros ps. apply keep_new_only_appends.
Qed.

Lemma monitor_task_only_appends env page :
  keeps only_appends (monitor_task env page).
Proof.
  unfold monitor_task.
  apply (keeps_bind _ only_appends_trans);
    [apply keeps_same_store_appends, init_database_same_store | intros _].
  apply (keeps_bind _ only_appends_trans);
    [apply keeps_same_store_appends, logger_same_store | intros _].
  apply (keeps_bind _ only_appends_trans);
    [apply get_new_profiles_only_appends | intros news].
  apply keeps_same_store_appends.
  destruct news; frame same_store_refl same_store_trans.
Qed.

(** X1.  Neither [save_profile] nor a whole cycle of [monitor_task] ever
    changes, moves or removes a row: in every outcome, returned or
    raised, and whatever SQLite, Telegram and the page do, the table
    afterwards is the table before followed by the rows that were
    added, and its urls are still pairwise distinct. *)
Theorem table_only_grows
    (env : Env) (page : HttpOutcome) (p : Profile) (w : World) :
  NoDup (stored_urls w) ->
  (exists rows,
      tracked_profiles (snd (save_profile env p w)) =
      (tracked_profiles w ++ rows)%list) /\
  NoDup (stored_urls (snd (save_profile env p w))) /\
  (exists rows,
      tracked_profiles (snd (monitor_task env page w)) =
      (tracked_profiles w ++ rows)%list) /\
  NoDup (stored_urls (snd (monitor_task env page w))).
Proof.
  intros H.
  destruct (save_profile_only_appends env p w) as [Hs1 Hs2].
  destruct (monitor_task_only_appends env page w) as [Hm1 Hm2].
  split; [exact Hs1|]. split; [exact (Hs2 H)|].
  split; [exact Hm1 | exact (Hm2 H)].
Qed.

Lemma table_only_grows_witness :
  NoDup (stored_urls (snd (save_profile calm_env anna fresh_world))) /\
  (exists rows,
      tracked_profiles
        (snd (monitor_task second_connect_fails_env
                (ok_response twice_listed_page)
                (snd (save_profile calm_env anna fresh_world)))) =
      (tracked_profiles (snd (save_profile calm_env anna fresh_world)) ++ rows)%list) /\
  NoDup (stored_urls
           (snd (monitor_task second_connect_fails_env
                   (ok_response twice_listed_page)
                   (snd (save_profile calm_env anna fresh_world))))).
Proof.
  assert (H : NoDup (stored_urls (snd (save_profile calm_env anna fresh_world)))).
  { repeat constructor. intros []. }
  split; [exact H|].
  destruct (table_only_grows second_connect_fails_env
              (ok_response twice_listed_page) anna
              (snd (save_profile calm_env anna fresh_world)) H)
    as [_ [_ [Hm1 Hm2]]].
  split; [exact Hm1 | exact Hm2].
Defined.

(** ** What a cycle reports and what it stores *)

Lemma keep_new_returns (env : Env) (ps : list Profile) :
  forall w news w',
    keep_new env ps w = (Return news, w') ->
    exists rows,
      tracked_profiles w' = (tracked_profiles w ++ rows)%list /\
      map row_profile rows = news /\
      NoDup (map url news) /\
      (forall u, In u (map url news) -> stored u (tracked_profiles w) = None).
Proof.
  induction ps as [|p rest IH]; intros w news w' H.
  - injection H as <- <-. exists []. rewrite app_nil_r.
    repeat split; [constructor | intros u []].
  - cbn [keep_new] in H. unfold bind at 1 in H. revert H.
    destruct (save_profile_cases env p w) as [now E Hs|now r E Hs|msg E|msg E];
      [| | |discriminate];
      set (w1 := mkWorld _ _ _ _ _); unfold bind;
      destruct (keep_new env rest w1) as [[nr|e] w2] eqn:K;
      try discriminate; unfold ret; intros H; injection H as <- <-;
      destruct (IH w1 nr w2 K) as [rows [Ht [Hr [Hd Hf]]]].
    + set (row := mkRow (sqlite_sequence w + 1) (url p) (name p) (photo p) now)
        in *.
      assert (Hstep : forall u, stored u (tracked_profiles w1) =
                match stored u (tracked_profiles w) with
                | Some r => Some r
                | None => if String.eqb (url p) u then Some row else None
                end).
      { intros u. apply stored_app. }
      exists (row :: rows). split; [|split; [|split]].
      * rewrite Ht. subst w1. cbn [tracked_profiles].
        rewrite <- app_assoc. reflexivity.
      * cbn [map]. rewrite Hr. destruct p; reflexivity.
      * cbn [map]. constructor; [|exact Hd].
        intros Hin. specialize (Hf _ Hin). rewrite Hstep, Hs in Hf.
        rewrite String.eqb_refl in Hf. discriminate.
      * cbn [map]. intros u [<-|Hin]; [exact Hs|].
        specialize (Hf _ Hin). rewrite Hstep in Hf.
        destruct (stored u (tracked_profiles w)); [discriminate | reflexivity].
    + exists rows. repeat split; assumption.
    + exists rows. repeat split; assumption.
Qed.

Lemma get_new_profiles_returns
    (env : Env) (page : HttpOutcome) (w w' : World) (news : list Profile) :
  get_new_profiles env page w = (Return news, w') ->
  exists rows,
    tracked_profiles w' = (tracked_profiles w ++ rows)%list /\
    map row_profile rows = news /\
    NoDup (map url news) /\
    (forall p, In p news -> stored (url p) (tracked_profiles w) = None) /\
    telegram w' = telegram w.
Proof.
  intros H.
  pose proof (get_new_profiles_same_telegram env page w) as Htel.
  rewrite H in Htel. cbn [snd] in Htel.
  unfold get_new_profiles, bind in H.
  destruct (extract_profiles_total page) as [ps Hps].
  destruct (Hps w) as [w1 [E [T _]]]. rewrite E in H.
  destruct (keep_new_returns env ps w1 news w' H) as [rows [Ht [Hr [Hd Hf]]]].
  exists rows. rewrite <- T. repeat split; try assumption.
  intros p Hp. apply Hf. apply in_map. exact Hp.
Qed.

(** X2.  When [get_new_profiles] returns, the table has grown by exactly
    one row per returned profile, in order, each row holding the url,
    name and photo of its profile; the returned urls are pairwise
    distinct, none of them was stored before, and no request went to
    Telegram. *)
Theorem new_profiles_are_the_rows_added
    (env : Env) (page : HttpOutcome) (w w' : World) (news : list Profile) :
  get_new_profiles env page w = (Return news, w') ->
  exists rows,
    tracked_profiles w' = (tracked_profiles w ++ rows)%list /\
    map row_profile rows = news /\
    NoDup (map url news) /\
    (forall p, In p news -> stored (url p) (tracked_profiles w) = None) /\
    telegram w' = telegram w.
Proof.
  intros H.
  destruct (get_new_profiles_returns env page w w' news H)
    as [rows [Ht [Hr [Hd [Hf Htel]]]]].
  exists rows. split; [exact Ht|]. split; [exact Hr|]. split; [exact Hd|].
  split; [exact Hf | exact Htel].
Qed.

Lemma new_profiles_witness :
  exists rows,
    tracked_profiles
      (snd (get_new_profiles first_statement_fails_env
              (ok_response three_block_page) fresh_world)) =
    rows /\
    map row_profile rows =
    [mkProfile "https://www.kino-teatr.ru/kino/acter/3/" "Неизвестно" None].
Proof.
  destruct (new_profiles_are_the_rows_added first_statement_fails_env
              (ok_response three_block_page) fresh_world _ _ eq_refl)
    as [rows [Ht [Hr _]]].
  exists rows. split; [exact Ht | exact Hr].
Defined.

Lemma stored_existsb (u : string) (table : list Row) :
  existsb (String.eqb u) (map profile_url table) =
  match stored u table with Some _ => true | None => false end.
Proof.
  unfold stored. induction table as [|r table IH]; simpl; [reflexivity|].
  rewrite (String.eqb_sym u (profile_url r)).
  destruct (String.eqb (profile_url r) u); [reflexivity | exact IH].
Qed.

Lemma keep_new_first_sightings (env : Env) (ps : list Profile) :
  store_available env ->
  forall w, exists w',
    keep_new env ps w = (Return (first_sightings (stored_urls w) ps), w') /\
    (forall p, In p ps -> stored (url p) (tracked_profiles w') <> None) /\
    (forall u, stored u (tracked_profiles w) <> None ->
               stored u (tracked_profiles w') <> None).
Proof.
  intros Havail. induction ps as [|p rest IH]; intros w.
  - exists w. split; [reflexivity|]. split; [intros p []|auto].
  - cbn [keep_new first_sightings]. unfold bind at 1. unfold stored_urls at 1.
    rewrite stored_existsb.
    destruct (save_profile_cases env p w) as [now E Hs|now r E Hs|msg E|msg E];
      try (destruct (Havail (connections w)) as [t Ht]; congruence);
      set (w1 := mkWorld _ _ _ _ _); rewrite Hs;
      destruct (IH w1) as [w' [Hrun [Hall Hkeep]]]; exists w';
      unfold bind; rewrite Hrun.
    + assert (Hp : stored (url p) (tracked_profiles w1) <> None).
      { subst w1. cbn [tracked_profiles]. rewrite stored_app, Hs.
        rewrite String.eqb_refl. discriminate. }
      split; [|split].
      * unfold stored_urls, w1. cbn [tracked_profiles].
        rewrite map_app. reflexivity.
      * intros q [<-|Hq]; [apply Hkeep; exact Hp | apply Hall; exact Hq].
      * intros u Hu. apply Hkeep. subst w1. cbn [tracked_profiles].
        rewrite stored_app.
        destruct (stored u (tracked_profiles w)); [discriminate | contradiction].
    + split; [reflexivity|]. split.
      * intros q [<-|Hq]; [|apply Hall; exact Hq].
        apply Hkeep. subst w1. cbn [tracked_profiles]. rewrite Hs. discriminate.
      * intros u Hu. apply Hkeep. exact Hu.
Qed.

(** X3.  With the store answering, [get_new_profiles] returns exactly
    the first sightings: the extracted profiles whose url is neither in
    the table nor earlier on the page, in the order of the page.  A url
    listed twice on one page is reported once, with the name and photo of
    its first block. *)
Theorem new_profiles_are_first_sightings
    (env : Env) (page : HttpOutcome) (w w1 : World) (extracted : list Profile) :
  store_available env ->
  extract_profiles page w = (Return extracted, w1) ->
  exists w',
    get_new_profiles env page w =
    (Return (first_sightings (stored_urls w) extracted), w').
Proof.
  intros Havail Hextract.
  destruct (extract_profiles_total page) as [ps Hps].
  destruct (Hps w) as [w1' [E [T _]]].
  rewrite Hextract in E. injection E as <- <-.
  destruct (keep_new_first_sightings env extracted Havail w1)
    as [w' [Hrun _]].
  exists w'. unfold get_new_profiles, bind. rewrite Hextract, Hrun.
  unfold stored_urls. rewrite T. reflexivity.
Qed.

Lemma first_sightings_witness :
  exists w',
    get_new_profiles calm_env (ok_response twice_listed_page) fresh_world =
    (Return [mkProfile (SITE ++ "/kino/acter/m/ros/1/") "First" None], w').
Proof.
  apply (new_profiles_are_first_sightings calm_env
           (ok_response twice_listed_page) fresh_world _ _
           calm_env_available eq_refl).
Defined.

Lemma keep_new_connect_failure (env : Env) (pre : list Profile) :
  forall w news w1 q post msg,
    keep_new env pre w = (Return news, w1) ->
    sqlite3 env (connections w1) = ConnectFails msg ->
    exists w2,
      keep_new env (pre ++ q :: post) w = (Raise (SqliteError msg), w2) /\
      tracked_profiles w2 = tracked_profiles w1.
Proof.
  induction pre as [|p rest IH]; intros w news w1 q post msg Hrun Hfail.
  - injection Hrun as <- <-. cbn [app keep_new]. unfold bind at 1.
    destruct (save_profile_cases env q w) as [now E Hs|now r E Hs|m E|m E];
      try congruence.
    rewrite Hfail in E. injection E as <-.
    eexists. split; reflexivity.
  - cbn [app keep_new] in *. unfold bind at 1 in Hrun. unfold bind at 1.
    revert Hrun.
    destruct (save_profile_cases env p w) as [now E Hs|now r E Hs|m E|m E];
      [| | |discriminate];
      set (wa := mkWorld _ _ _ _ _); unfold bind;
      destruct (keep_new env rest wa) as [[nr|e] wb] eqn:K;
      try discriminate; unfold ret; intros H; injection H as <- <-;
      destruct (IH wa nr wb q post msg K Hfail) as [w2 [Hraise Ht]];
      exists w2; rewrite Hraise; (split; [reflexivity | exact Ht]).
Qed.

(** X4.  [save_profile] opens its connection outside its [try]: when the
    connection for some profile of the page cannot be opened, the
    exception leaves [get_new_profiles], nothing is returned, and the
    rows stored for the profiles before it stay in the table. *)
Theorem connect_failure_aborts_the_cycle
    (env : Env) (page : HttpOutcome) (w w0 w1 : World)
    (pre post news : list Profile) (q : Profile) (msg : string) :
  extract_profiles page w = (Return (pre ++ q :: post)%list, w0) ->
  keep_new env pre w0 = (Return news, w1) ->
  sqlite3 env (connections w1) = ConnectFails msg ->
  exists w2,
    get_new_profiles env page w = (Raise (SqliteError msg), w2) /\
    tracked_profiles w2 = tracked_profiles w1 /\
    telegram w2 = telegram w.
Proof.
  intros Hextract Hpre Hfail.
  destruct (keep_new_connect_failure env pre w0 news w1 q post msg Hpre Hfail)
    as [w2 [Hraise Ht]].
  exists w2.
  pose proof (get_new_profiles_same_telegram env page w) as Htel.
  unfold get_new_profiles, bind in *. rewrite Hextract in *.
  rewrite Hraise in *. split; [reflexivity|]. split; [exact Ht | exact Htel].
Qed.

Lemma connect_failure_witness :
  exists w2,
    get_new_profiles second_connect_fails_env (ok_response three_block_page)
      fresh_world =
    (Raise (SqliteError "unable to open database file"), w2) /\
    map profile_url (tracked_profiles w2) = [SITE ++ "/kino/acter/m/ros/1/"].
Proof.
  destruct (connect_failure_aborts_the_cycle second_connect_fails_env
              (ok_response three_block_page) fresh_world _ _
              [mkProfile (SITE ++ "/kino/acter/m/ros/1/") "Неизвестно" None]
              [] _
              (mkProfile "https://www.kino-teatr.ru/kino/acter/3/"
                         "Неизвестно" None)
              "unable to open database file" eq_refl eq_refl eq_refl)
    as [w2 [Hraise [Ht _]]].
  exists w2. split; [exact Hraise|]. rewrite Ht. reflexivity.
Defined.

(** ** The requests of the notifier *)

Lemma first_request (env : Env) (p : Profile) :
  match photo_present p with
  | Some s => call_bot env (send_photo (TELEGRAM_CHAT_ID env) s
                                       (notification_text p))
  | None => call_bot env (send_message (TELEGRAM_CHAT_ID env)
                                       (notification_text p))
  end = call_bot env (primary_call env p).
Proof. unfold primary_call. destruct (photo_present p); reflexivity. Qed.

Lemma notify_success (env : Env) (p : Profile) (w : World) :
  bot env (List.length (telegram w)) = None ->
  notify env p w =
  (Return tt,
   mkWorld (tracked_profiles w) (sqlite_sequence w) (connections w)
           (telegram w ++ [primary_call env p])
           (log w ++ [mkLog INFO ("Отправлено уведомление о профиле: " ++
                                  name p)])).
Proof.
  intros Hok. unfold notify, try_except, bind. rewrite first_request.
  unfold call_bot. rewrite Hok. reflexivity.
Qed.

Lemma send_notification_run (env : Env) (ps : list Profile) :
  forall w, exists w',
    send_notification env ps w = (Return tt, w') /\
    telegram w' =
    (telegram w ++ notify_calls env (List.length (telegram w)) ps)%list.
Proof.
  induction ps as [|p rest IH]; intros w.
  - exists w. split; [reflexivity|]. cbn [notify_calls].
    rewrite app_nil_r. reflexivity.
  - cbn [send_notification notify_calls]. unfold bind at 1.
    destruct (bot env (List.length (telegram w))) as [msg|] eqn:B.
    + destruct (notify_after_failure env p w (primary_call env p) msg
                  eq_refl B) as [w1 [Hrun [Hsent _]]].
      rewrite Hrun. destruct (IH w1) as [w' [Hrest Htel]].
      exists w'. split; [exact Hrest|].
      rewrite Htel, Hsent, length_app, <- app_assoc. cbn [List.length app].
      replace (List.length (telegram w) + 2) with
        (S (S (List.length (telegram w)))) by lia.
      reflexivity.
    + rewrite (notify_success env p w B).
      set (w1 := mkWorld _ _ _ _ _).
      destruct (IH w1) as [w' [Hrest Htel]].
      exists w'. split; [exact Hrest|].
      rewrite Htel. subst w1. cbn [telegram].
      rewrite length_app, <- app_assoc. cbn [List.length app].
      replace (List.length (telegram w) + 1) with
        (S (List.length (telegram w))) by lia.
      reflexivity.
Qed.

Lemma notify_calls_length (env : Env) (ps : list Profile) :
  forall n,
    List.length ps <= List.length (notify_calls env n ps) <= 2 * List.length ps.
Proof.
  induction ps as [|p rest IH]; intros n; cbn [notify_calls List.length].
  - lia.
  - destruct (bot env n); cbn [List.length].
    + specialize (IH (S (S n))). lia.
    + specialize (IH (S n)). lia.
Qed.

Lemma notify_calls_available (env : Env) (ps : list Profile) :
  telegram_available env ->
  forall n, notify_calls env n ps = map (primary_call env) ps.
Proof.
  intros Hok. induction ps as [|p rest IH]; intros n; cbn [notify_calls map].
  - reflexivity.
  - rewrite (Hok n), IH. reflexivity.
Qed.

(** X5.  [send_notification] never raises and never touches the table,
    whatever Telegram answers.  The requests it makes are, for each
    profile in order, the notification (with the photo when there is
    one) and, exactly when that request failed, the fallback text after
    it; a fallback that fails too does not stop the loop. *)
Theorem send_notification_requests
    (env : Env) (ps : list Profile) (w : World) :
  exists w',
    send_notification env ps w = (Return tt, w') /\
    telegram w' =
    (telegram w ++ notify_calls env (List.length (telegram w)) ps)%list /\
    tracked_profiles w' = tracked_profiles w /\
    sqlite_sequence w' = sqlite_sequence w.
Proof.
  destruct (send_notification_run env ps w) as [w' [Hrun Htel]].
  exists w'. split; [exact Hrun|]. split; [exact Htel|].
  pose proof (send_notification_same_store env ps w) as Hstore.
  rewrite Hrun in Hstore. exact Hstore.
Qed.

(** X6.  For n profiles [send_notification] makes at least n and at
    most 2n requests to Telegram. *)
Theorem send_notification_request_count
    (env : Env) (ps : list Profile) (w : World) :
  List.length (telegram w) + List.length ps <=
  List.length (telegram (snd (send_notification env ps w))) <=
  List.length (telegram w) + 2 * List.length ps.
Proof.
  destruct (send_notification_run env ps w) as [w' [Hrun Htel]].
  rewrite Hrun. cbn [snd]. rewrite Htel, length_app.
  pose proof (notify_calls_length env ps (List.length (telegram w))). lia.
Qed.

(** X7.  When Telegram accepts every request, each profile gets exactly
    one request, its notification, in the order of the list, and one
    line in the log says so; no fallback text is sent. *)
Theorem all_notifications_delivered
    (env : Env) (ps : list Profile) (w : World) :
  telegram_available env ->
  exists w',
    send_notification env ps w = (Return tt, w') /\
    telegram w' = (telegram w ++ map (primary_call env) ps)%list /\
    log w' =
    (log w ++
     map (fun p => mkLog INFO ("Отправлено уведомление о профиле: " ++ name p))
         ps)%list.
Proof.
  intros Hok. revert w. induction ps as [|p rest IH]; intros w.
  - exists w. cbn [map]. rewrite !app_nil_r. repeat split.
  - cbn [send_notification map]. unfold bind at 1.
    rewrite (notify_success env p w (Hok _)).
    set (w1 := mkWorld _ _ _ _ _).
    destruct (IH w1) as [w' [Hrun [Htel Hlog]]].
    exists w'. split; [exact Hrun|].
    rewrite Htel, Hlog. subst w1. cbn [telegram log].
    rewrite <- !app_assoc. split; reflexivity.
Qed.

Lemma all_notifications_witness :
  exists w',
    send_notification calm_env [anna_renamed; anna] fresh_world =
    (Return tt, w') /\
    telegram w' =
    [send_photo "-1001" "https://x.test/a.jpg" (notification_text anna_renamed);
     send_message "-1001" (notification_text anna)].
Proof.
  destruct (all_notifications_delivered calm_env [anna_renamed; anna]
              fresh_world) as [w' [Hrun [Htel _]]].
  - intros n. reflexivity.
  - exists w'. split; [exact Hrun | exact Htel].
Defined.

(** ** The periodic job *)

Lemma init_database_completes (env : Env) (w : World) (now : string) :
  sqlite3 env (connections w) = Completes now ->
  init_database env w =
  (Return tt,
   mkWorld (tracked_profiles w) (sqlite_sequence w) (S (connections w))
           (telegram w)
           (log w ++ [mkLog INFO "База данных инициализирована"])).
Proof.
  intros H. unfold init_database, bind, sqlite3_connect. rewrite H.
  reflexivity.
Qed.

(** X8.  When [monitor_task] returns, the requests it made to Telegram
    are exactly those of the notifier for the rows it added to the
    table, in the order of the rows; a cycle that adds no row makes no
    request. *)
Theorem cycle_notifies_the_rows_it_adds
    (env : Env) (page : HttpOutcome) (w w' : World) :
  monitor_task env page w = (Return tt, w') ->
  exists rows,
    tracked_profiles w' = (tracked_profiles w ++ rows)%list /\
    telegram w' =
    (telegram w ++
     notify_calls env (List.length (telegram w)) (map row_profile rows))%list.
Proof.
  intros H. unfold monitor_task in H. unfold bind at 1 in H.
  pose proof (init_database_same_store env w) as [I1 _].
  pose proof (init_database_same_telegram env w) as I2.
  destruct (init_database env w) as [[[]|e] wa]; [|discriminate].
  cbn [snd] in I1, I2. unfold bind at 1 in H. cbn [logger] in H.
  set (wb := mkWorld _ _ _ _ _) in H. unfold bind at 1 in H.
  destruct (get_new_profiles env page wb) as [[news|e] wc] eqn:G;
    [|discriminate].
  destruct (get_new_profiles_returns env page wb wc news G)
    as [rows [Ht [Hr [_ [_ Htel]]]]].
  subst wb. cbn [tracked_profiles telegram] in Ht, Htel.
  rewrite I1 in Ht. rewrite I2 in Htel.
  exists rows. destruct news as [|p news].
  - injection H as <-. cbn [tracked_profiles telegram]. rewrite Hr.
    cbn [notify_calls]. rewrite app_nil_r. split; assumption.
  - unfold bind in H. cbn [logger] in H. set (wd := mkWorld _ _ _ _ _) in H.
    destruct (send_notification_run env (p :: news) wd) as [we [Hrun Hsent]].
    pose proof (send_notification_same_store env (p :: news) wd) as [S1 _].
    rewrite Hrun in H, S1. injection H as <-. cbn [snd] in S1.
    subst wd. cbn [tracked_profiles telegram] in S1, Hsent.
    rewrite S1, Hsent, Hr, Htel. split; [exact Ht | reflexivity].
Qed.

Lemma cycle_notifies_witness :
  exists rows,
    tracked_profiles
      (snd (monitor_task first_send_fails_env (ok_response three_block_page)
              fresh_world)) = rows /\
    telegram
      (snd (monitor_task first_send_fails_env (ok_response three_block_page)
              fresh_world)) =
    notify_calls first_send_fails_env 0 (map row_profile rows).
Proof.
  assert (H : monitor_task first_send_fails_env
                (ok_response three_block_page) fresh_world =
              (Return tt,
               snd (monitor_task first_send_fails_env
                      (ok_response three_block_page) fresh_world)))
    by (vm_compute; reflexivity).
  destruct (cycle_notifies_the_rows_it_adds first_send_fails_env
              (ok_response three_block_page) fresh_world _ H)
    as [rows [Ht Htel]].
  exists rows. split; [exact Ht | exact Htel].
Defined.

(** X9.  A cycle that raises has made no request to Telegram: the
    exceptions of [monitor_task] come from the initialisation or from
    the connection of [save_profile], both before the notifier, and the
    notifier does not raise. *)
Theorem cycle_that_raises_sends_nothing
    (env : Env) (page : HttpOutcome) (w w' : World) (e : Exception) :
  monitor_task env page w = (Raise e, w') ->
  telegram w' = telegram w.
Proof.
  intros H. unfold monitor_task in H. unfold bind at 1 in H.
  pose proof (init_database_same_telegram env w) as I2.
  destruct (init_database env w) as [[[]|e0] wa]; cbn [snd] in I2.
  - unfold bind at 1 in H. cbn [logger] in H.
    set (wb := mkWorld _ _ _ _ _) in H. unfold bind at 1 in H.
    pose proof (get_new_profiles_same_telegram env page wb) as G2.
    destruct (get_new_profiles env page wb) as [[news|e1] wc];
      cbn [snd] in G2; subst wb; cbn [telegram] in G2.
    + destruct news as [|p news]; [discriminate|].
      unfold bind in H. cbn [logger] in H.
      set (wd := mkWorld _ _ _ _ _) in H.
      destruct (send_notification_run env (p :: news) wd) as [we [Hrun _]].
      rewrite Hrun in H. discriminate.
    + injection H as _ <-. unfold same_telegram in *.
      cbn [telegram] in G2. congruence.
  - injection H as _ <-. exact I2.
Qed.

Lemma cycle_that_raises_witness :
  fst (monitor_task second_connect_fails_env (ok_response three_block_page)
         fresh_world) =
  Raise (SqliteError "unable to open database file") /\
  telegram (snd (monitor_task second_connect_fails_env
                   (ok_response three_block_page) fresh_world)) = [].
Proof.
  split; [vm_compute; reflexivity|].
  apply (cycle_that_raises_sends_nothing second_connect_fails_env
           (ok_response three_block_page) fresh_world _
           (SqliteError "unable to open database file")).
  vm_compute. reflexivity.
Defined.

Lemma monitor_task_available
    (env : Env) (page : HttpOutcome) (ps : list Profile) :
  store_available env ->
  (forall w, exists w',
      extract_profiles page w = (Return ps, w') /\
      tracked_profiles w' = tracked_profiles w /\
      sqlite_sequence w' = sqlite_sequence w /\
      connections w' = connections w /\
      telegram w' = telegram w) ->
  forall w, exists w',
    monitor_task env page w = (Return tt, w') /\
    (forall p, In p ps -> stored (url p) (tracked_profiles w') <> None) /\
    ((forall p, In p ps -> stored (url p) (tracked_profiles w) <> None) ->
     telegram w' = telegram w /\ tracked_profiles w' = tracked_profiles w).
Proof.
  intros Havail Hps w.
  destruct (Havail (connections w)) as [now Hnow].
  unfold monitor_task. unfold bind at 1.
  rewrite (init_database_completes env w now Hnow).
  unfold bind at 1. cbn [logger]. set (wb := mkWorld _ _ _ _ _).
  unfold bind at 1. unfold get_new_profiles. unfold bind at 1.
  destruct (Hps wb) as [wc [E [T [_ [_ Tel]]]]]. rewrite E.
  subst wb. cbn [tracked_profiles telegram] in T, Tel.
  destruct (keep_new_first_sightings env ps Havail wc)
    as [wd [Hrun [Hall _]]].
  rewrite Hrun.
  pose proof (keep_new_same_telegram env ps wc) as K2.
  rewrite Hrun in K2. unfold same_telegram in K2. cbn [snd] in K2.
  assert (Hquiet : (forall p, In p ps ->
                      stored (url p) (tracked_profiles w) <> None) ->
                   first_sightings (stored_urls wc) ps = [] /\
                   tracked_profiles wd = tracked_profiles w).
  { intros Hstored.
    destruct (keep_new_none_new env ps Havail wc) as [w3 [Hrun2 T3]].
    { intros p Hp. rewrite T. apply Hstored. exact Hp. }
    rewrite Hrun in Hrun2. injection Hrun2 as Hfs <-.
    split; [exact Hfs | congruence]. }
  destruct (first_sightings (stored_urls wc) ps) as [|p fs].
  - cbn [logger]. eexists. split; [reflexivity|].
    cbn [tracked_profiles telegram]. split; [exact Hall|].
    intros Hstored. destruct (Hquiet Hstored) as [_ Ht].
    split; [congruence | exact Ht].
  - unfold bind. cbn [logger]. set (we := mkWorld _ _ _ _ _).
    destruct (send_notification_run env (p :: fs) we) as [wf [Hs _]].
    pose proof (send_notification_same_store env (p :: fs) we) as [S1 _].
    rewrite Hs in S1 |- *. cbn [snd] in S1. subst we.
    cbn [tracked_profiles] in S1.
    exists wf. split; [reflexivity|]. split.
    + intros q Hq. rewrite S1. apply Hall. exact Hq.
    + intros Hstored. destruct (Hquiet Hstored) as [Hfs _]. discriminate.
Qed.

(** X10.  With the store answering, two cycles in a row on the same page
    both return, and the second one adds no row and makes no request to
    Telegram, whatever Telegram answered during the first: a
    notification that failed is not sent again. *)
Theorem second_cycle_is_silent
    (env : Env) (page : HttpOutcome) (w : World) :
  store_available env ->
  exists w1 w2,
    monitor_task env page w = (Return tt, w1) /\
    monitor_task env page w1 = (Return tt, w2) /\
    telegram w2 = telegram w1 /\
    tracked_profiles w2 = tracked_profiles w1.
Proof.
  intros Havail.
  destruct (extract_profiles_total page) as [ps Hps].
  destruct (monitor_task_available env page ps Havail Hps w)
    as [w1 [Hrun1 [Hall1 _]]].
  destruct (monitor_task_available env page ps Havail Hps w1)
    as [w2 [Hrun2 [_ Hquiet]]].
  exists w1, w2. split; [exact Hrun1|]. split; [exact Hrun2|].
  apply Hquiet. exact Hall1.
Qed.

Lemma second_cycle_witness :
  exists w1 w2,
    monitor_task telegram_down_env (ok_response three_block_page) fresh_world =
    (Return tt, w1) /\
    monitor_task telegram_down_env (ok_response three_block_page) w1 =
    (Return tt, w2) /\
    telegram w2 = telegram w1 /\
    tracked_profiles w2 = tracked_profiles w1.
Proof.
  apply (second_cycle_is_silent telegram_down_env
           (ok_response three_block_page) fresh_world).
  intros n. exists "2025-12-01 10:00:00". reflexivity.
Defined.

(** X11.  When the fetch fails (the GET raises or the status is 4xx or
    5xx) and the table can be initialised, the cycle returns without
    raising, makes no request to Telegram, leaves the table as it is and
    opens no connection beyond the one of the initialisation. *)
Theorem failed_fetch_gives_quiet_cycle
    (env : Env) (page : HttpOutcome) (w : World) (now : string) :
  fetch_error page ->
  sqlite3 env (connections w) = Completes now ->
  exists w',
    monitor_task env page w = (Return tt, w') /\
    telegram w' = telegram w /\
    tracked_profiles w' = tracked_profiles w /\
    connections w' = S (connections w).
Proof.
  intros Hfetch Hnow.
  unfold monitor_task. unfold bind at 1.
  rewrite (init_database_completes env w now Hnow).
  unfold bind at 1. cbn [logger]. set (wb := mkWorld _ _ _ _ _).
  unfold bind at 1. unfold get_new_profiles. unfold bind at 1.
  destruct (extract_profiles_failed page wb Hfetch) as [e He].
  rewrite He. cbn [keep_new ret logger]. eexists. split; [reflexivity|].
  repeat split.
Qed.

Lemma failed_fetch_witness :
  exists w',
    monitor_task calm_env (Fails "Read timed out.") fresh_world =
    (Return tt, w') /\
    telegram w' = [] /\
    tracked_profiles w' = [] /\
    connections w' = 1.
Proof.
  apply (failed_fetch_gives_quiet_cycle calm_env (Fails "Read timed out.")
           fresh_world "2025-12-01 10:00:00").
  - exact I.
  - reflexivity.
Defined.

(** ** More on the status command *)

Lemma ping_command_completes
    (env : Env) (check_time now : string) (page : HttpOutcome) (w : World) :
  sqlite3 env (connections w) = Completes now ->
  ping_command env check_time page w =
  call_bot env
    (reply_text
       (report_text check_time (Z.of_nat (List.length (tracked_profiles w)))
                    "✅ Работает" (page_line page)))
    (mkWorld (tracked_profiles w) (sqlite_sequence w) (S (connections w))
             (telegram w) (log w)).
Proof.
  intros H.
  unfold ping_command, bind, try_except, sqlite3_connect, select_count.
  rewrite H. destruct page as [r|msg]; reflexivity.
Qed.

Lemma report_text_page_line (check_time : string) (count : Z)
    (db_status page_status : string) :
  Str.contains page_status (report_text check_time count db_status page_status)
  = true.
Proof.
  unfold report_text.
  apply (contains_right ("🤖 Статус бота:" ++ Str.nl ++ "🕐 Время проверки: ")).
  apply (contains_right check_time).
  apply (contains_right (Str.nl ++ "📊 Профилей в базе: ")).
  apply (contains_right (Str.of_Z count)).
  apply (contains_right (Str.nl ++ "🗄️ База данных: ")).
  apply (contains_right db_status).
  exact (contains_app (Str.nl ++ "🌐 Целевая страница: ") page_status _).
Qed.

(** X12.  [ping_command] only reads: in every outcome, raised or not,
    the table, the counter and the log are as before, and at most one
    request, the reply, went to Telegram. *)
Theorem ping_only_reads
    (env : Env) (check_time : string) (page : HttpOutcome) (w : World) :
  tracked_profiles (snd (ping_command env check_time page w)) =
  tracked_profiles w /\
  sqlite_sequence (snd (ping_command env check_time page w)) =
  sqlite_sequence w /\
  log (snd (ping_command env check_time page w)) = log w /\
  (telegram (snd (ping_command env check_time page w)) = telegram w \/
   exists text,
     telegram (snd (ping_command env check_time page w)) =
     (telegram w ++ [reply_text text])%list).
Proof.
  destruct (ping_command_same_store env check_time page w) as [Ht Hs].
  split; [exact Ht|]. split; [exact Hs|].
  unfold ping_command, bind, try_except, sqlite3_connect, select_count.
  destruct (sqlite3 env (connections w)) as [now|msg|msg];
    destruct page as [r|m]; cbn [fst snd ret raise requests_get];
    try (split; [reflexivity | left; reflexivity]);
    unfold call_bot; cbn [telegram];
    destruct (bot env (List.length (telegram w)));
    (split; [reflexivity | right; eexists; reflexivity]).
Qed.

(** X14.  When the table can be read and the reply goes through, the
    report says of the page: "✅ Доступна" for the status 200, "❌ Код: "
    and the code for any other status, and "❌ Ошибка: " and the text of
    the exception when the GET raised. *)
Theorem ping_reports_the_page
    (env : Env) (check_time now : string) (page : HttpOutcome) (w : World) :
  sqlite3 env (connections w) = Completes now ->
  bot env (List.length (telegram w)) = None ->
  exists text w',
    ping_command env check_time page w = (Return tt, w') /\
    telegram w' = (telegram w ++ [reply_text text])%list /\
    Str.contains (page_line page) text = true.
Proof.
  intros Hnow Hbot. rewrite (ping_command_completes env _ now _ _ Hnow).
  unfold call_bot. cbn [telegram]. rewrite Hbot.
  eexists. eexists. split; [reflexivity|]. split; [reflexivity|].
  apply report_text_page_line.
Qed.

Lemma ping_reports_the_page_witness :
  exists text w',
    ping_command calm_env "2025-12-01 10:00:05" (Responds no_content)
      fresh_world = (Return tt, w') /\
    telegram w' = [reply_text text] /\
    Str.contains "❌ Код: 204" text = true.
Proof.
  apply (ping_reports_the_page calm_env "2025-12-01 10:00:05"
           "2025-12-01 10:00:00" (Responds no_content) fresh_world);
    reflexivity.
Defined.

(** X15.  The status command and the monitor judge a response
    differently: for a status other than 200 that is neither 4xx nor 5xx
    (204, or a 3xx that was not followed) the report says "❌ Код: " and
    the code, while [extract_profiles] takes the same response as a
    success and returns the profiles of its blocks. *)
Theorem ping_and_monitor_disagree
    (env : Env) (check_time now : string) (r : Response) (w : World) :
  status_code r <> 200%Z ->
  http_error (status_code r) = false ->
  sqlite3 env (connections w) = Completes now ->
  bot env (List.length (telegram w)) = None ->
  (exists text w',
      ping_command env check_time (Responds r) w = (Return tt, w') /\
      telegram w' = (telegram w ++ [reply_text text])%list /\
      Str.contains ("❌ Код: " ++ Str.of_Z (status_code r)) text = true) /\
  (exists w',
      extract_profiles (Responds r) w =
      (Return (parse_blocks (profile_blocks (soup r))), w')).
Proof.
  intros Hcode Hok Hnow Hbot. split.
  - rewrite (ping_command_completes env _ now _ _ Hnow).
    unfold call_bot. cbn [telegram]. rewrite Hbot.
    eexists. eexists. split; [reflexivity|]. split; [reflexivity|].
    cbn [page_line]. apply Z.eqb_neq in Hcode. rewrite Hcode.
    apply report_text_page_line.
  - rewrite (extract_profiles_ok r w Hok). eexists. reflexivity.
Qed.

Lemma ping_and_monitor_witness :
  (exists text w',
      ping_command calm_env "2025-12-01 10:00:05" (Responds no_content)
        fresh_world = (Return tt, w') /\
      telegram w' = [reply_text text] /\
      Str.contains "❌ Код: 204" text = true) /\
  (exists w',
      extract_profiles (Responds no_content) fresh_world =
      (Return [mkProfile (SITE ++ "/kino/acter/w/ros/2/") "Anna Lee" None], w')).
Proof.
  apply (ping_and_monitor_disagree calm_env "2025-12-01 10:00:05"
           "2025-12-01 10:00:00" no_content fresh_world);
    [discriminate | reflexivity | reflexivity | reflexivity].
Defined.

(** X16.  The reply is sent outside any [try]: when the table can be
    read and Telegram refuses the reply, the exception of the Telegram
    client leaves [ping_command]; the reply was the only request made. *)
Theorem ping_reply_failure_escapes
    (env : Env) (check_time now msg : string) (page : HttpOutcome) (w : World) :
  sqlite3 env (connections w) = Completes now ->
  bot env (List.length (telegram w)) = Some msg ->
  exists text w',
    ping_command env check_time page w = (Raise (TelegramError msg), w') /\
    telegram w' = (telegram w ++ [reply_text text])%list.
Proof.
  intros Hnow Hbot. rewrite (ping_command_completes env _ now _ _ Hnow).
  unfold call_bot. cbn [telegram]. rewrite Hbot.
  eexists. eexists. split; reflexivity.
Qed.

Lemma ping_reply_failure_witness :
  exists text w',
    ping_command telegram_down_env "2025-12-01 10:00:05"
      (ok_response three_block_page) fresh_world =
    (Raise (TelegramError "Bad Gateway"), w') /\
    telegram w' = [reply_text text].
Proof.
  apply (ping_reply_failure_escapes telegram_down_env "2025-12-01 10:00:05"
           "2025-12-01 10:00:00" "Bad Gateway"
           (ok_response three_block_page) fresh_world);
    reflexivity.
Defined.

Lemma ping_reports_witness :
  exists text w',
    ping_command calm_env "2025-12-01 10:00:05"
      (ok_response three_block_page) fresh_world = (Return tt, w') /\
    telegram w' = [reply_text text] /\
    Str.contains "2025-12-01 10:00:05" text = true /\
    Str.contains "0" text = true /\
    Str.contains "✅ Работает" text = true.
Proof.
  apply (ping_reports_when_store_answers calm_env "2025-12-01 10:00:05"
           "2025-12-01 10:00:00" (ok_response three_block_page) fresh_world);
    reflexivity.
Defined.

(** ** More on the extraction *)

Lemma one_of_item_or_card (s : string) :
  Soup.one_of ["actor-item"; "person-item"] s = true -> item_or_card s = true.
Proof.
  unfold Soup.one_of. cbn [existsb].
  destruct (String.eqb_spec s "actor-item") as [E|_]; [rewrite E; reflexivity|].
  destruct (String.eqb_spec s "person-item") as [E|_]; [rewrite E; reflexivity|].
  discriminate.
Qed.

Lemma existsb_weaken {A} (f g : A -> bool) (l : list A) :
  (forall a, f a = true -> g a = true) ->
  existsb f l = true -> existsb g l = true.
Proof.
  intros Hfg. induction l as [|a l IH]; cbn [existsb]; [discriminate|].
  intros H. apply orb_true_iff in H. apply orb_true_iff.
  destruct H as [H|H]; [left; apply Hfg; exact H | right; apply IH; exact H].
Qed.

Lemma primary_selects_secondary (e : PageElement) :
  Soup.selects ["div"] (Some (Soup.one_of ["actor-item"; "person-item"])) e
  = true ->
  Soup.selects ["div"] (Some item_or_card) e = true.
Proof.
  destruct e as [n c a k| |]; cbn [Soup.selects]; [|discriminate..].
  intros H. apply andb_true_iff in H. destruct H as [Hn Hc].
  apply andb_true_iff. split; [exact Hn|].
  destruct c as [tokens|]; cbn [Soup.matches_class] in *; [|discriminate].
  apply orb_true_iff in Hc. apply orb_true_iff. destruct Hc as [Hc|Hc].
  - left. apply (existsb_weaken _ _ _ one_of_item_or_card Hc).
  - right. apply one_of_item_or_card. exact Hc.
Qed.

Lemma filter_weaken_length {A} (f g : A -> bool) (l : list A) :
  (forall a, f a = true -> g a = true) ->
  List.length (filter f l) <= List.length (filter g l).
Proof.
  intros Hfg. induction l as [|a l IH]; cbn [filter]; [lia|].
  destruct (f a) eqn:F.
  - rewrite (Hfg a F). cbn [List.length]. lia.
  - destruct (g a); cbn [List.length]; lia.
Qed.

(** X17.  The alternative search can only add blocks: every block the
    first search finds is found by the alternative search too (its class
    names contain "item"), so the blocks the extraction works on are
    always among those of the alternative search, and the alternative
    search never finds fewer blocks than the first. *)
Theorem first_search_is_within_alternative (soup : PageElement) :
  incl (primary_blocks soup) (secondary_blocks soup) /\
  incl (profile_blocks soup) (secondary_blocks soup) /\
  List.length (primary_blocks soup) <= List.length (secondary_blocks soup).
Proof.
  assert (Hincl : incl (primary_blocks soup) (secondary_blocks soup)).
  { intros b Hb. unfold primary_blocks, secondary_blocks, Soup.find_all in *.
    apply filter_In in Hb. destruct Hb as [Hin Hsel].
    apply filter_In. split; [exact Hin|].
    apply primary_selects_secondary. exact Hsel. }
  split; [exact Hincl|]. split.
  - unfold profile_blocks. destruct (primary_blocks soup) as [|b l] eqn:E.
    + apply incl_refl.
    + exact Hincl.
  - apply filter_weaken_length. exact primary_selects_secondary.
Qed.

Lemma parse_blocks_length_filter (l : list PageElement) :
  List.length (parse_blocks l) = List.length (filter valid_block l).
Proof.
  induction l as [|b l IH]; cbn [parse_blocks filter]; [reflexivity|].
  destruct (valid_block b) eqn:V.
  - destruct (parse_block_valid b V) as [p ->]. cbn [List.length].
    rewrite IH. reflexivity.
  - rewrite (parse_block_invalid b V). exact IH.
Qed.

Lemma filter_length_bound {A} (f : A -> bool) (l : list A) :
  List.length (filter f l) <= List.length l.
Proof.
  induction l as [|a l IH]; cbn [filter]; [lia|].
  destruct (f a); cbn [List.length]; lia.
Qed.

(** X18.  For a response that is not an HTTP error the extraction
    returns one entity for each found block whose first anchor has a
    non-empty href and nothing for the other blocks, so never more
    entities than blocks; the one line it logs states the number of
    entities returned. *)
Theorem extraction_counts_the_valid_blocks (r : Response) (w : World) :
  http_error (status_code r) = false ->
  exists profiles w',
    extract_profiles (Responds r) w = (Return profiles, w') /\
    List.length profiles =
    List.length (filter valid_block (profile_blocks (soup r))) /\
    List.length profiles <= List.length (profile_blocks (soup r)) /\
    log w' =
    (log w ++ [mkLog INFO ("Найдено профилей на странице: " ++
                           Str.of_nat (List.length profiles))])%list.
Proof.
  intros Hok. rewrite (extract_profiles_ok r w Hok).
  eexists. eexists. split; [reflexivity|].
  rewrite parse_blocks_length_filter. split; [reflexivity|].
  split; [apply filter_length_bound | reflexivity].
Qed.

Lemma extraction_counts_witness :
  exists profiles w',
    extract_profiles (ok_response three_block_page) fresh_world =
    (Return profiles, w') /\
    List.length profiles = 2 /\
    log w' = [mkLog INFO "Найдено профилей на странице: 2"].
Proof.
  destruct (extraction_counts_the_valid_blocks
              (mkResponse 200 "OK" three_block_page) fresh_world eq_refl)
    as [profiles [w' [Hrun [Hlen [_ Hlog]]]]].
  exists profiles, w'. split; [exact Hrun|]. split; [exact Hlen|].
  rewrite Hlog. injection Hrun as <- _. reflexivity.
Defined.
